(** * Tuition management server (server.py): a shallow embedding

    The server keeps two documents in memory (students and admission
    requests), mutates them in request handlers and writes them back to
    JSON files.  The embedding follows the source function by function:

    - [Py]      decoded JSON values and the Python operations the handlers
                apply to them ([float()], [int()], [in], subscripting, ...);
    - [Host]    what the process reads from its surroundings: the clock,
                the failures of file-system calls, two library functions;
    - [Server]  the module state, the persistence functions and the request
                handlers, written in a state-and-exception monad.

    Definitions come first, the lemmas and theorems follow. *)

From Stdlib Require Import ZArith Floats Ascii String.
From stdpp Require Import gmap strings list fin_maps pretty.

#[local] Open Scope string_scope.
#[local] Open Scope Z_scope.
#[local] Set Warnings "-register-all".

(* ===================================================================== *)
(** ** Python values *)
(* ===================================================================== *)

Module Py.

(** A value decoded from JSON: [None], [bool], [int], [float], [str],
    [list] and [dict] with string keys.  Floats are IEEE binary64, as in
    CPython. *)
Inductive json :=
| JNull
| JBool (b : bool)
| JInt (z : Z)
| JFloat (f : float)
| JStr (s : string)
| JList (l : list json)
| JObj (m : gmap string json).

Abbreviation dict := (gmap string json).

(** Exceptions by class.  [OSError] is the class that [except IOError]
    catches ([IOError] is its alias in Python 3).  [Unsupported] is not a
    Python exception: it marks a run that leaves the embedding (a dict that
    would get a key that is not a string, a comparison of compound values),
    and no [except] clause catches it. *)
Inductive exn :=
| KeyError (key : json)
| TypeError
| ValueError
| AttributeError
| OverflowError
| IndexError
| OSError
| JSONDecodeError
| UnicodeDecodeError
| Unsupported.

Inductive result (A : Type) :=
| Ok (a : A)
| Raise (e : exn).
Arguments Ok {A} a.
Arguments Raise {A} e.

Definition rbind {A B} (r : result A) (k : A → result B) : result B :=
  match r with
  | Ok a => k a
  | Raise e => Raise e
  end.

(** [except Exception] *)
Definition is_exception (e : exn) : bool :=
  match e with
  | Unsupported => false
  | _ => true
  end.

(** [except IOError] *)
Definition is_ioerror (e : exn) : bool :=
  match e with
  | OSError => true
  | _ => false
  end.

(** [except (json.JSONDecodeError, IOError)] *)
Definition is_decode_or_ioerror (e : exn) : bool :=
  match e with
  | OSError | JSONDecodeError => true
  | _ => false
  end.

(** *** Numbers *)

Definition Z_of_bool (b : bool) : Z := if b then 1 else 0.

(** [float(n)] for an [int]: the nearest binary64, ties to even;
    [OverflowError] beyond the range. *)
Definition float_of_Z (z : Z) : result float :=
  match binary_normalize 53 1024 z 0 false with
  | S754_infinity _ => Raise OverflowError
  | sf => Ok (SF2Prim sf)
  end.

(** [int(x)] for a [float]: truncation towards zero. *)
Definition Z_of_float (f : float) : result Z :=
  match Prim2SF f with
  | S754_zero _ => Ok 0
  | S754_finite s m e =>
      let mag := if 0 <=? e then Z.pos m * 2 ^ e else Z.pos m / 2 ^ (- e) in
      Ok (if s then - mag else mag)
  | S754_infinity _ => Raise OverflowError
  | S754_nan => Raise ValueError
  end.

(** [x == n] for a [float] [x] and an [int] [n]: Python compares the exact
    values. *)
Definition float_eq_Z (f : float) (n : Z) : bool :=
  match Prim2SF f with
  | S754_zero _ => n =? 0
  | S754_finite s m e =>
      let v := if s then Z.neg m else Z.pos m in
      if 0 <=? e then n =? v * 2 ^ e else n * 2 ^ (- e) =? v
  | _ => false
  end.

(** [n / d] for two [int]s with [0 < d]: the quotient rounded once to the
    nearest binary64.  The last bit of the scaled quotient records whether
    the division left a remainder. *)
Definition int_truediv (n d : Z) : result float :=
  let scaled := Z.abs n * 2 ^ 128 in
  let q := scaled / d in
  let sticky := if scaled mod d =? 0 then 0 else 1 in
  let m := 2 * q + sticky in
  match binary_normalize 53 1024 (if n <? 0 then - m else m) (- 129) false with
  | S754_infinity _ => Raise OverflowError
  | sf => Ok (SF2Prim sf)
  end.

(** [x / 1000] *)
Definition truediv_1000 (x : json) : result float :=
  match x with
  | JInt z => int_truediv z 1000
  | JBool b => int_truediv (Z_of_bool b) 1000
  | JFloat f => Ok (f / 1000)%float
  | _ => Raise TypeError
  end.

(** *** Truth value, comparisons *)

(** [bool(x)], as in [x if x else y] and [x or y]. *)
Definition truthy (x : json) : bool :=
  match x with
  | JNull => false
  | JBool b => b
  | JInt z => negb (z =? 0)
  | JFloat f => match Prim2SF f with S754_zero _ => false | _ => true end
  | JStr s => negb (String.eqb s "")
  | JList l => match l with [] => false | _ => true end
  | JObj m => negb (bool_decide (m = ∅))
  end.

(** [x == n] for an [int] [n] *)
Definition eq_int (x : json) (n : Z) : bool :=
  match x with
  | JInt z => z =? n
  | JBool b => Z_of_bool b =? n
  | JFloat f => float_eq_Z f n
  | _ => false
  end.

(** [x == s] for a [str] [s] *)
Definition eq_str (x : json) (s : string) : bool :=
  match x with
  | JStr t => String.eqb t s
  | _ => false
  end.

(** [isinstance(x, list)] *)
Definition is_list (x : json) : bool :=
  match x with
  | JList _ => true
  | _ => false
  end.

(** *** Containers *)

(** [s in t] for two strings *)
Fixpoint is_substring (s t : string) : bool :=
  String.prefix s t ||
  match t with
  | EmptyString => false
  | String _ t' => is_substring s t'
  end.

(** The position [l[i]] refers to, negative indices counting from the end. *)
Definition list_index {A} (l : list A) (i : Z) : option nat :=
  let n := Z.of_nat (length l) in
  if (0 <=? i) && (i <? n) then Some (Z.to_nat i)
  else if (- n <=? i) && (i <? 0) then Some (Z.to_nat (i + n))
  else None.

(** [k in c] *)
Definition contains (c k : json) : result bool :=
  match c with
  | JObj m =>
      match k with
      | JStr s => Ok (bool_decide (is_Some (m !! s)))
      | JList _ | JObj _ => Raise TypeError
      | _ => Ok false
      end
  | JList l =>
      match k with
      | JStr s => Ok (existsb (λ x, eq_str x s) l)
      | _ => Raise Unsupported
      end
  | JStr t =>
      match k with
      | JStr s => Ok (is_substring s t)
      | _ => Raise TypeError
      end
  | _ => Raise TypeError
  end.

(** [c[k]] *)
Definition getitem (c k : json) : result json :=
  match c with
  | JObj m =>
      match k with
      | JStr s => match m !! s with Some v => Ok v | None => Raise (KeyError k) end
      | JList _ | JObj _ => Raise TypeError
      | _ => Raise (KeyError k)
      end
  | JList l =>
      match k with
      | JInt _ | JBool _ =>
          let i := match k with JInt z => z | JBool b => Z_of_bool b | _ => 0 end in
          match list_index l i with
          | Some n => match l !! n with Some v => Ok v | None => Raise IndexError end
          | None => Raise IndexError
          end
      | _ => Raise TypeError
      end
  | JStr _ =>
      match k with
      | JInt _ | JBool _ => Raise Unsupported
      | _ => Raise TypeError
      end
  | _ => Raise TypeError
  end.

(** [c[k] = v], giving the container after the assignment. *)
Definition setitem (c k v : json) : result json :=
  match c with
  | JObj m =>
      match k with
      | JStr s => Ok (JObj (<[s := v]> m))
      | JList _ | JObj _ => Raise TypeError
      | _ => Raise Unsupported
      end
  | JList l =>
      match k with
      | JInt _ | JBool _ =>
          let i := match k with JInt z => z | JBool b => Z_of_bool b | _ => 0 end in
          match list_index l i with
          | Some n => Ok (JList (<[n := v]> l))
          | None => Raise IndexError
          end
      | _ => Raise TypeError
      end
  | _ => Raise TypeError
  end.

(** [c[k][k2] = v]: the inner container is changed in place, so the outer
    one shows the change under the same key. *)
Definition setitem2 (c k : json) (k2 : string) (v : json) : result json :=
  rbind (getitem c k) (λ inner,
  rbind (setitem inner (JStr k2) v) (λ inner',
  setitem c k inner')).

(** [field in data], [data[field]] and [data.get(field, default)] for a
    field name written in the source. *)
Definition has_field (data : json) (field : string) : result bool :=
  contains data (JStr field).

Definition field (data : json) (name : string) : result json :=
  getitem data (JStr name).

Definition get_field (data : json) (name : string) (dflt : json) : result json :=
  match data with
  | JObj m => Ok (default dflt (m !! name))
  | _ => Raise AttributeError
  end.

End Py.

Import Py.

(* ===================================================================== *)
(** ** The host: clock, file-system failures, library functions *)
(* ===================================================================== *)

Module Host.

(** A [datetime] in local time, as [datetime.now()] and
    [datetime.fromtimestamp] return it. *)
Record datetime := {
  year : Z;
  month : Z;
  day : Z;
  hour : Z;
  minute : Z;
  second : Z;
}.

(** One reading of the clock: the local [datetime] and the value of
    [int(datetime.now().timestamp() * 1000)] at that moment. *)
Record instant := {
  local : datetime;
  epoch_ms : Z;
}.

(** The file-system calls that can raise [OSError]. *)
Inductive syscall :=
| SysOpenRead (path : string)
| SysOpenWrite (path : string)
| SysWrite (path : string)
| SysReplace (src dst : string)
| SysRename (src dst : string)
| SysMakedirs (path : string).

(** What a run of the server depends on and the source does not fix.
    - [str_to_float], [str_to_int]: [float(s)] and [int(s)] on a string,
      [None] for [ValueError];
    - [fromtimestamp]: [datetime.fromtimestamp], which depends on the local
      time zone;
    - [clock n]: the [n]-th reading of [datetime.now()];
    - [io_error n c]: whether the [n]-th fallible file-system call, being
      [c], raises [OSError] (for whatever reason: permissions, a full
      disk, a missing directory);
    - [torn_write n]: when the [n]-th call is a write that fails, whether
      the bytes that reached the file stop inside a multi-byte character. *)
Record environment := {
  str_to_float : string → option float;
  str_to_int : string → option Z;
  fromtimestamp : float → result datetime;
  clock : nat → instant;
  io_error : nat → syscall → bool;
  torn_write : nat → bool;
}.

(** [n] in decimal, padded with zeros to [width] digits ([%m], [%d], ...). *)
Definition zero_pad (width : nat) (n : Z) : string :=
  let s := pretty n in
  String.concat "" (replicate (width - String.length s)%nat "0") +:+ s.

(** [strftime('%Y%m%d_%H%M%S')] *)
Definition strftime (d : datetime) : string :=
  zero_pad 4 (year d) +:+ zero_pad 2 (month d) +:+ zero_pad 2 (day d) +:+ "_" +:+
  zero_pad 2 (hour d) +:+ zero_pad 2 (minute d) +:+ zero_pad 2 (second d).

Fixpoint has_slash (p : string) : bool :=
  match p with
  | EmptyString => false
  | String c p' => Ascii.eqb c "/"%char || has_slash p'
  end.

(** [os.path.basename]: what follows the last slash. *)
Fixpoint basename (p : string) : string :=
  match p with
  | EmptyString => EmptyString
  | String _ p' => if has_slash p then basename p' else p
  end.

(** [os.path.join(dir, name)] for a relative [name]. *)
Definition path_join (dir name : string) : string := dir +:+ "/" +:+ name.

Section conversions.
Context (env : environment).

(** [float(x)] *)
Definition py_float (x : json) : result float :=
  match x with
  | JInt z => float_of_Z z
  | JBool b => float_of_Z (Z_of_bool b)
  | JFloat f => Ok f
  | JStr s =>
      match str_to_float env s with
      | Some f => Ok f
      | None => Raise ValueError
      end
  | _ => Raise TypeError
  end.

(** [int(x)] *)
Definition py_int (x : json) : result Z :=
  match x with
  | JInt z => Ok z
  | JBool b => Ok (Z_of_bool b)
  | JFloat f => Z_of_float f
  | JStr s =>
      match str_to_int env s with
      | Some z => Ok z
      | None => Raise ValueError
      end
  | _ => Raise TypeError
  end.

(** [dt.fromtimestamp(x / 1000)] *)
Definition datetime_of_ms (x : json) : result datetime :=
  rbind (truediv_1000 x) (fromtimestamp env).
End conversions.

End Host.

Import Host.

(* ===================================================================== *)
(** ** The server *)
(* ===================================================================== *)

Module Server.

Definition STUDENTS_FILE : string := "students_data.json".
Definition ADMISSIONS_FILE : string := "admission_requests.json".
Definition BACKUP_DIR : string := "backups".

(** *** State *)

(** What a file holds, by what reading it as UTF-8 and [json.load] make
    of it:
    - [Serialized data]: the complete output of [json.dump] for [data];
    - [Truncated data]: a proper beginning of that output, ending between
      two characters (what an interrupted write leaves);
    - [Torn data]: a beginning of that output that ends inside a
      multi-byte character;
    - [Invalid raw]: the bytes [raw], which are not a JSON text. *)
Inductive content :=
| Serialized (data : json)
| Truncated (data : json)
| Torn (data : json)
| Invalid (raw : string).

(** Whether a sequence of bytes is well-formed UTF-8 (the strict decoder
    of [open(..., encoding='utf-8')]: no overlong form, no surrogate,
    nothing above U+10FFFF, no sequence cut short). *)
Definition byte_in (lo hi : N) (c : ascii) : bool :=
  ((lo <=? N_of_ascii c) && (N_of_ascii c <=? hi))%N.

Definition continuation (c : ascii) : bool := byte_in 128 191 c.

Fixpoint utf8_valid (s : string) : bool :=
  match s with
  | EmptyString => true
  | String a s1 =>
      if byte_in 0 127 a then utf8_valid s1
      else match s1 with
      | EmptyString => false
      | String b s2 =>
          if byte_in 194 223 a then continuation b && utf8_valid s2
          else match s2 with
          | EmptyString => false
          | String c s3 =>
              if byte_in 224 239 a then
                (if byte_in 224 224 a then byte_in 160 191 b
                 else if byte_in 237 237 a then byte_in 128 159 b
                 else continuation b)
                && continuation c && utf8_valid s3
              else match s3 with
              | EmptyString => false
              | String d s4 =>
                  byte_in 240 244 a
                  && (if byte_in 240 240 a then byte_in 144 191 b
                      else if byte_in 244 244 a then byte_in 128 143 b
                      else continuation b)
                  && continuation c && continuation d && utf8_valid s4
              end
          end
      end
  end.

(** What [json.load] returns or raises for a file that could be opened.
    Bytes that are not UTF-8 make the reading itself raise
    [UnicodeDecodeError]; text that is not JSON makes the parser raise
    [JSONDecodeError].  A cut-off object, array or string is never a JSON
    text; whether the beginning of a number or of a constant is one
    depends on where it ends, which [Truncated] does not record. *)
Definition decode (c : content) : result json :=
  match c with
  | Serialized data => Ok data
  | Truncated (JObj _ | JList _ | JStr _) => Raise JSONDecodeError
  | Truncated _ => Raise Unsupported
  | Torn _ => Raise UnicodeDecodeError
  | Invalid raw =>
      Raise (if utf8_valid raw then JSONDecodeError else UnicodeDecodeError)
  end.

Record filesystem := {
  files : gmap string content;
  dirs : gset string;
}.

(** The lines the server prints. *)
Inductive line :=
| ErrorLoading (path : string)
| ErrorSaving (path : string)
| BackedUp (backup_path : string)
| BackupFailed.

(** A document: [{"students": [...], "next_id": n}] or
    [{"requests": [...], "next_id": n}]. *)
Record document := {
  entities : list dict;
  next_id : Z;
}.

(** The module-level variables [students_data] and [admissions_data], the
    disk, the standard output, and how many clock readings and fallible
    file-system calls have happened. *)
Record world := {
  students_data : document;
  admissions_data : document;
  disk : filesystem;
  stdout : list line;
  ticks : nat;
  io_steps : nat;
}.

Definition with_students_data (d : document) (w : world) : world :=
  {| students_data := d; admissions_data := admissions_data w; disk := disk w;
     stdout := stdout w; ticks := ticks w; io_steps := io_steps w |}.

Definition with_admissions_data (d : document) (w : world) : world :=
  {| students_data := students_data w; admissions_data := d; disk := disk w;
     stdout := stdout w; ticks := ticks w; io_steps := io_steps w |}.

Definition with_files (fs : gmap string content) (w : world) : world :=
  {| students_data := students_data w; admissions_data := admissions_data w;
     disk := {| files := fs; dirs := dirs (disk w) |};
     stdout := stdout w; ticks := ticks w; io_steps := io_steps w |}.

Definition with_dirs (ds : gset string) (w : world) : world :=
  {| students_data := students_data w; admissions_data := admissions_data w;
     disk := {| files := files (disk w); dirs := ds |};
     stdout := stdout w; ticks := ticks w; io_steps := io_steps w |}.

Definition with_stdout (out : list line) (w : world) : world :=
  {| students_data := students_data w; admissions_data := admissions_data w;
     disk := disk w; stdout := out; ticks := ticks w; io_steps := io_steps w |}.

Definition with_ticks (n : nat) (w : world) : world :=
  {| students_data := students_data w; admissions_data := admissions_data w;
     disk := disk w; stdout := stdout w; ticks := n; io_steps := io_steps w |}.

Definition with_io_steps (n : nat) (w : world) : world :=
  {| students_data := students_data w; admissions_data := admissions_data w;
     disk := disk w; stdout := stdout w; ticks := ticks w; io_steps := n |}.

Definition students (w : world) : list dict := entities (students_data w).
Definition requests (w : world) : list dict := entities (admissions_data w).

Definition with_students (l : list dict) (w : world) : world :=
  with_students_data {| entities := l; next_id := next_id (students_data w) |} w.

Definition with_requests (l : list dict) (w : world) : world :=
  with_admissions_data {| entities := l; next_id := next_id (admissions_data w) |} w.

(** The value [json.dump] receives for each document. *)
Definition students_json (w : world) : json :=
  JObj (<["students" := JList (JObj <$> students w)]>
        (<["next_id" := JInt (next_id (students_data w))]> ∅)).

Definition admissions_json (w : world) : json :=
  JObj (<["requests" := JList (JObj <$> requests w)]>
        (<["next_id" := JInt (next_id (admissions_data w))]> ∅)).

(** *** The monad of the handlers

    A computation runs on the world and ends with a value or with a raised
    exception; the changes made before the exception stay. *)
Definition M (A : Type) : Type := world → result A * world.

Definition ret {A} (a : A) : M A := λ w, (Ok a, w).

Definition bind {A B} (m : M A) (k : A → M B) : M B :=
  λ w, match m w with
       | (Ok a, w') => k a w'
       | (Raise e, w') => (Raise e, w')
       end.

Definition raise {A} (e : exn) : M A := λ w, (Raise e, w).

(** A pure operation on values, which may raise. *)
Definition lift {A} (r : result A) : M A := λ w, (r, w).

(** [try: body  except <classes>: handler] *)
Definition try_except {A} (body : M A) (catches : exn → bool) (handler : exn → M A) : M A :=
  λ w, match body w with
       | (Ok a, w') => (Ok a, w')
       | (Raise e, w') => if catches e then handler e w' else (Raise e, w')
       end.

Definition gets {A} (f : world → A) : M A := λ w, (Ok (f w), w).
Definition modify (f : world → world) : M unit := λ w, (Ok tt, f w).

Declare Scope py_scope.
Delimit Scope py_scope with py.
Notation "x <- m ;; k" := (bind m (λ x, k))
  (at level 100, m at next level, right associativity) : py_scope.
Notation "m ;; k" := (bind m (λ _, k))
  (at level 100, right associativity) : py_scope.
Notation "'when' b 'then' m" := (if b then m else ret tt)
  (at level 99, b at level 0) : py_scope.
#[local] Open Scope py_scope.

(** *** Responses

    A handler returns [jsonify(...)] with a status code.  The body is the
    dictionary given to [jsonify], or, in the [except Exception as e]
    clauses, [{"success": False, "error": str(e)}]. *)
Inductive body :=
| Json (d : dict)
| ErrorOf (e : exn).

Record response := {
  payload : body;
  code : Z;
}.

Definition respond (c : Z) (fields : list (string * json)) : response :=
  {| payload := Json (list_to_map fields); code := c |}.

Definition failure (c : Z) (message : string) : response :=
  respond c [("success", JBool false); ("error", JStr message)].

(** [except Exception as e: return jsonify({...}), 500] *)
Definition internal_error (e : exn) : M response :=
  ret {| payload := ErrorOf e; code := 500 |}.

(** [next((s for s in l if s["id"] == id), None)], as the position of the
    object found. *)
Fixpoint find_by_id (l : list dict) (id : Z) : result (option nat) :=
  match l with
  | [] => Ok None
  | s :: l' =>
      match s !! "id" with
      | None => Raise (KeyError (JStr "id"))
      | Some v =>
          if eq_int v id then Ok (Some 0%nat)
          else rbind (find_by_id l' id) (λ r, Ok (S <$> r))
      end
  end.

(** The loop over [required_fields]: the first field missing from [data]. *)
Fixpoint first_missing (fields : list string) (data : json) : result (option string) :=
  match fields with
  | [] => Ok None
  | f :: fs =>
      rbind (has_field data f)
            (λ present, if present then first_missing fs data else Ok (Some f))
  end.

(** [{str(i): 2 if i < adm_month else 0 if i <= now_month else 3
      for i in range(1, 13)}] *)
Definition month_status (adm_month now_month i : Z) : Z :=
  if i <? adm_month then 2
  else if i <=? now_month then 0
  else 3.

Definition month_statuses (adm_month now_month : Z) : dict :=
  list_to_map ((λ i, (pretty i, JInt (month_status adm_month now_month i))) <$> seqZ 1 12).

Definition required_student_fields : list string :=
  ["name"; "className"; "guardianPhone"; "dob"; "admissionDate"; "subjects"; "fees"].

Definition required_admission_fields : list string :=
  ["name"; "className"; "guardianPhone"; "subjects"].

Definition updatable_fields : list string :=
  ["name"; "className"; "school"; "guardianPhone"; "guardianName";
   "studentPhone"; "address"; "dob"; "admissionDate"; "subjects";
   "fees"; "profileImagePath"; "yearlyMonthStatus"; "yearlyPaymentRecords";
   "pendingFeesReminders"].

(** The statements of [record_payment] that initialise and fill the
    payment maps, as functions of the student object. *)

(** [if key not in student: student[key] = {}] *)
Definition ensure_map (key : string) (s : dict) : result dict :=
  rbind (has_field (JObj s) key) (λ present,
  if present then Ok s else Ok (<[key := JObj ∅]> s)).

(** [if yr not in student[key]: student[key][yr] = {}] *)
Definition ensure_year (key : string) (yr : json) (s : dict) : result dict :=
  rbind (field (JObj s) key) (λ c,
  rbind (contains c yr) (λ present,
  if present then Ok s
  else rbind (setitem c yr (JObj ∅)) (λ c', Ok (<[key := c']> s)))).

(** [student[key][yr][mon] = v] *)
Definition set_month (key : string) (yr : json) (mon : string) (v : json) (s : dict)
  : result dict :=
  rbind (field (JObj s) key) (λ c,
  rbind (setitem2 c yr mon v) (λ c', Ok (<[key := c']> s))).

(** The six statements one after the other, when none of them raises. *)
Definition payment_statements (yr : json) (mon : string) (payment_record : dict)
    (s : dict) : result dict :=
  rbind (ensure_map "yearlyMonthStatus" s) (λ s,
  rbind (ensure_map "yearlyPaymentRecords" s) (λ s,
  rbind (ensure_year "yearlyMonthStatus" yr s) (λ s,
  rbind (ensure_year "yearlyPaymentRecords" yr s) (λ s,
  rbind (set_month "yearlyMonthStatus" yr mon (JInt 1) s) (λ s,
  set_month "yearlyPaymentRecords" yr mon (JObj payment_record) s))))).

Section handlers.
Context (env : environment).

(** **** The surroundings *)

(** [datetime.now()] *)
Definition datetime_now : M instant :=
  λ w, (Ok (clock env (ticks w)), with_ticks (S (ticks w)) w).

(** [int(datetime.now().timestamp() * 1000)] *)
Definition now_ms : M json :=
  t <- datetime_now ;; ret (JInt (epoch_ms t)).

Definition print (l : line) : M unit :=
  modify (λ w, with_stdout (stdout w ++ [l]) w).

(** A fallible file-system call: it raises when the host says so. *)
Definition sys (c : syscall) : M unit :=
  λ w, let w' := with_io_steps (S (io_steps w)) w in
       if io_error env (io_steps w) c then (Raise OSError, w') else (Ok tt, w').

Definition os_path_exists (p : string) : M bool :=
  gets (λ w, bool_decide (is_Some (files (disk w) !! p))
             || bool_decide (p ∈ dirs (disk w))).

Definition os_makedirs (p : string) : M unit :=
  sys (SysMakedirs p) ;;
  modify (λ w, with_dirs ({[p]} ∪ dirs (disk w)) w).

(** [os.remove] of a file; the call itself is taken to succeed. *)
Definition os_remove (p : string) : M unit :=
  modify (λ w, with_files (delete p (files (disk w))) w).

(** Moving a file over [dst].  Moving a directory is not modelled. *)
Definition move (src dst : string) : M unit :=
  λ w, match files (disk w) !! src with
       | Some c => (Ok tt, with_files (<[dst := c]> (delete src (files (disk w)))) w)
       | None =>
           (Raise (if bool_decide (src ∈ dirs (disk w)) then Unsupported else OSError), w)
       end.

Definition os_rename (src dst : string) : M unit :=
  sys (SysRename src dst) ;; move src dst.

Definition os_replace (src dst : string) : M unit :=
  sys (SysReplace src dst) ;; move src dst.

(** [open(p, 'w')]: the file is created, or emptied. *)
Definition open_write (p : string) : M unit :=
  sys (SysOpenWrite p) ;;
  modify (λ w, with_files (<[p := Invalid ""]> (files (disk w))) w).

(** [json.dump(data, f)] and the closing of [f]: a failure leaves the
    beginning of the output in the file. *)
Definition json_dump (data : json) (p : string) : M unit :=
  λ w, let w' := with_io_steps (S (io_steps w)) w in
       if io_error env (io_steps w) (SysWrite p)
       then let left := if torn_write env (io_steps w) then Torn data
                        else Truncated data in
            (Raise OSError, with_files (<[p := left]> (files (disk w))) w')
       else (Ok tt, with_files (<[p := Serialized data]> (files (disk w))) w').

(** [with open(p, 'r') as f: return json.load(f)] *)
Definition json_load (p : string) : M json :=
  sys (SysOpenRead p) ;;
  c <- gets (λ w, files (disk w) !! p) ;;
  match c with
  | Some c => lift (decode c)
  | None => raise OSError
  end.

(** **** Data persistence *)

Definition backup_corrupted_file (filepath : string) : M unit :=
  ex <- os_path_exists BACKUP_DIR ;;
  (when (negb ex) then os_makedirs BACKUP_DIR) ;;
  now <- datetime_now ;;
  let timestamp := strftime (local now) in
  let backup_path :=
    path_join BACKUP_DIR (basename filepath +:+ "." +:+ timestamp +:+ ".bak") in
  try_except
    (os_rename filepath backup_path ;; print (BackedUp backup_path))
    is_exception
    (λ _, print BackupFailed).

Definition load_json_file (filepath : string) (default_data : json) : M json :=
  ex <- os_path_exists filepath ;;
  if ex then
    try_except
      (json_load filepath)
      is_decode_or_ioerror
      (λ _, print (ErrorLoading filepath) ;;
            backup_corrupted_file filepath ;;
            ret default_data)
  else ret default_data.

Definition save_json_file (filepath : string) (data : json) : M unit :=
  let temp_file := filepath +:+ ".tmp" in
  try_except
    (open_write temp_file ;;
     json_dump data temp_file ;;
     os_replace temp_file filepath)
    is_ioerror
    (λ _, print (ErrorSaving filepath) ;;
          ex <- os_path_exists temp_file ;;
          when ex then os_remove temp_file).

Definition save_students : M unit :=
  data <- gets students_json ;; save_json_file STUDENTS_FILE data.

Definition save_admissions : M unit :=
  data <- gets admissions_json ;; save_json_file ADMISSIONS_FILE data.

Definition get_next_student_id : M Z :=
  current_id <- gets (λ w, next_id (students_data w)) ;;
  modify (λ w, with_students_data
                 {| entities := students w; next_id := next_id (students_data w) + 1 |} w) ;;
  save_students ;;
  ret current_id.

Definition get_next_admission_id : M Z :=
  current_id <- gets (λ w, next_id (admissions_data w)) ;;
  modify (λ w, with_admissions_data
                 {| entities := requests w; next_id := next_id (admissions_data w) + 1 |} w) ;;
  save_admissions ;;
  ret current_id.

(** **** Objects of the two collections

    A handler holds a reference to the dictionary it found; the
    dictionary is the one at position [i] of the list, and assignments
    to it change the list in place. *)

Definition find_student (id : Z) : M (option nat) :=
  λ w, (find_by_id (students w) id, w).

Definition find_request (id : Z) : M (option nat) :=
  λ w, (find_by_id (requests w) id, w).

Definition student_at (i : nat) : M dict :=
  gets (λ w, default ∅ (students w !! i)).

Definition request_at (i : nat) : M dict :=
  gets (λ w, default ∅ (requests w !! i)).

(** [student[key]] *)
Definition student_get (i : nat) (key : string) : M json :=
  s <- student_at i ;; lift (getitem (JObj s) (JStr key)).

(** [student[key] = v] *)
Definition student_set (i : nat) (key : string) (v : json) : M unit :=
  modify (λ w, with_students (alter (insert key v) i (students w)) w).

(** [admission[key]] *)
Definition request_get (i : nat) (key : string) : M json :=
  r <- request_at i ;; lift (getitem (JObj r) (JStr key)).

(** [admission[key] = v] *)
Definition request_set (i : nat) (key : string) (v : json) : M unit :=
  modify (λ w, with_requests (alter (insert key v) i (requests w)) w).

(** [data.get(name, <default>)]: the attribute [get] is looked up first,
    then the default is evaluated, then the call is made. *)
Definition get_or (data : json) (name : string) (dflt : M json) : M json :=
  match data with
  | JObj m => d <- dflt ;; ret (default d (m !! name))
  | _ => raise AttributeError
  end.

(** A statement that changes the student object at position [i]: the
    object after the statement replaces it, or the statement raises and
    the object stays as it is. *)
Definition on_student (i : nat) (statement : dict → result dict) : M unit :=
  s <- student_at i ;;
  s' <- lift (statement s) ;;
  modify (λ w, with_students (<[i := s']> (students w)) w).

(** The loop over [updatable_fields] in [update_student]. *)
Fixpoint update_fields (i : nat) (data : json) (fields : list string) : M unit :=
  match fields with
  | [] => ret tt
  | f :: fs =>
      present <- lift (has_field data f) ;;
      (when present then
         (if String.eqb f "fees" then
            v <- lift (field data f) ;;
            x <- lift (py_float env v) ;;
            student_set i f (JFloat x)
          else
            v <- lift (field data f) ;;
            student_set i f v)) ;;
      update_fields i data fs
  end.

(** **** Student API endpoints *)

Definition get_all_students : M response :=
  l <- gets students ;;
  ret (respond 200 [("success", JBool true);
                    ("students", JList (JObj <$> l));
                    ("count", JInt (Z.of_nat (length l)))]).

(** Not under [try]: an exception leaves the handler. *)
Definition get_student (student_id : Z) : M response :=
  found <- find_student student_id ;;
  match found with
  | Some i =>
      s <- student_at i ;;
      ret (respond 200 [("success", JBool true); ("student", JObj s)])
  | None => ret (failure 404 "Student not found")
  end.

Definition add_student (data : json) : M response :=
  try_except
    (missing <- lift (first_missing required_student_fields data) ;;
     match missing with
     | Some f => ret (failure 400 ("Missing required field: " +:+ f))
     | None =>
         id <- get_next_student_id ;;
         name <- lift (field data "name") ;;
         className <- lift (field data "className") ;;
         school <- lift (get_field data "school" JNull) ;;
         guardianPhone <- lift (field data "guardianPhone") ;;
         guardianName <- lift (get_field data "guardianName" JNull) ;;
         studentPhone <- lift (get_field data "studentPhone" JNull) ;;
         address <- lift (get_field data "address" JNull) ;;
         dob <- lift (field data "dob") ;;
         admissionDate <- lift (field data "admissionDate") ;;
         subjects <- lift (field data "subjects") ;;
         fees_in <- lift (field data "fees") ;;
         fees <- lift (py_float env fees_in) ;;
         profileImagePath <- lift (get_field data "profileImagePath" JNull) ;;
         createdAt <- now_ms ;;
         yearlyMonthStatus <- lift (get_field data "yearlyMonthStatus" (JObj ∅)) ;;
         yearlyPaymentRecords <- lift (get_field data "yearlyPaymentRecords" (JObj ∅)) ;;
         pendingFeesReminders <- lift (get_field data "pendingFeesReminders" (JObj ∅)) ;;
         let student : dict :=
           list_to_map
             [("id", JInt id);
              ("name", name);
              ("className", className);
              ("school", school);
              ("guardianPhone", guardianPhone);
              ("guardianName", guardianName);
              ("studentPhone", studentPhone);
              ("address", address);
              ("dob", dob);
              ("admissionDate", admissionDate);
              ("subjects", subjects);
              ("fees", JFloat fees);
              ("profileImagePath", profileImagePath);
              ("createdAt", createdAt);
              ("yearlyMonthStatus", yearlyMonthStatus);
              ("yearlyPaymentRecords", yearlyPaymentRecords);
              ("pendingFeesReminders", pendingFeesReminders)] in
         modify (λ w, with_students (students w ++ [student]) w) ;;
         save_students ;;
         ret (respond 201 [("success", JBool true);
                           ("student", JObj student);
                           ("id", JInt id)])
     end)
    is_exception internal_error.

Definition update_student (student_id : Z) (data : json) : M response :=
  try_except
    (found <- find_student student_id ;;
     match found with
     | None => ret (failure 404 "Student not found")
     | Some i =>
         update_fields i data updatable_fields ;;
         save_students ;;
         s <- student_at i ;;
         ret (respond 200 [("success", JBool true); ("student", JObj s)])
     end)
    is_exception internal_error.


Definition record_payment (student_id : Z) (data : json) : M response :=
  try_except
    (found <- find_student student_id ;;
     match found with
     | None => ret (failure 404 "Student not found")
     | Some i =>
         yr <- get_or data "year"
                 (t <- datetime_now ;; ret (JStr (pretty (year (local t))))) ;;
         mon_in <- get_or data "month"
                     (t <- datetime_now ;; ret (JInt (month (local t)))) ;;
         mon <- lift (py_int env mon_in) ;;
         paidDate <- get_or data "paidDate" now_ms ;;
         amount_in <- lift (field data "amount") ;;
         amount <- lift (py_float env amount_in) ;;
         notes <- lift (get_field data "notes" JNull) ;;
         paymentMethod <- lift (get_field data "paymentMethod" (JStr "cash")) ;;
         let payment_record : dict :=
           list_to_map
             [("paidDate", paidDate);
              ("amount", JFloat amount);
              ("notes", notes);
              ("paymentMethod", paymentMethod)] in
         on_student i (ensure_map "yearlyMonthStatus") ;;
         on_student i (ensure_map "yearlyPaymentRecords") ;;
         on_student i (ensure_year "yearlyMonthStatus" yr) ;;
         on_student i (ensure_year "yearlyPaymentRecords" yr) ;;
         on_student i (set_month "yearlyMonthStatus" yr (pretty mon) (JInt 1)) ;;
         on_student i (set_month "yearlyPaymentRecords" yr (pretty mon)
                         (JObj payment_record)) ;;
         save_students ;;
         s <- student_at i ;;
         ret (respond 200 [("success", JBool true); ("student", JObj s)])
     end)
    is_exception internal_error.

(** **** Admission request API endpoints *)

Definition submit_admission_request (data : json) : M response :=
  try_except
    (missing <- lift (first_missing required_admission_fields data) ;;
     match missing with
     | Some f => ret (failure 400 ("Missing required field: " +:+ f))
     | None =>
         id <- get_next_admission_id ;;
         name <- lift (field data "name") ;;
         className <- lift (field data "className") ;;
         school <- lift (get_field data "school" (JStr "")) ;;
         guardianPhone <- lift (field data "guardianPhone") ;;
         guardianName <- lift (get_field data "guardianName" (JStr "")) ;;
         studentPhone <- lift (get_field data "studentPhone" (JStr "")) ;;
         address <- lift (get_field data "address" (JStr "")) ;;
         dob <- lift (get_field data "dob" (JStr "")) ;;
         admissionDate <- get_or data "admissionDate" now_ms ;;
         subjects_in <- lift (field data "subjects") ;;
         subjects <- (if is_list subjects_in then lift (field data "subjects")
                      else (x <- lift (field data "subjects") ;; ret (JList [x]))) ;;
         fees_in <- lift (get_field data "fees" (JInt 0)) ;;
         fees <- lift (py_float env fees_in) ;;
         submittedAt <- now_ms ;;
         let admission_request : dict :=
           list_to_map
             [("id", JInt id);
              ("name", name);
              ("className", className);
              ("school", school);
              ("guardianPhone", guardianPhone);
              ("guardianName", guardianName);
              ("studentPhone", studentPhone);
              ("address", address);
              ("dob", dob);
              ("admissionDate", admissionDate);
              ("subjects", subjects);
              ("fees", JFloat fees);
              ("submittedAt", submittedAt);
              ("status", JStr "pending")] in
         modify (λ w, with_requests (requests w ++ [admission_request]) w) ;;
         save_admissions ;;
         ret (respond 201 [("success", JBool true);
                           ("message", JStr "Admission request submitted successfully!");
                           ("request", JObj admission_request)])
     end)
    is_exception internal_error.


Definition approve_admission (request_id : Z) : M response :=
  try_except
    (found <- find_request request_id ;;
     match found with
     | None => ret (failure 404 "Admission request not found")
     | Some j =>
         st <- request_get j "status" ;;
         if negb (eq_str st "pending")
         then ret (failure 400 "Request already processed")
         else
           admission <- request_at j ;;
           admission_date <- get_or (JObj admission) "admissionDate" now_ms ;;
           adm_dt <- lift (datetime_of_ms env admission_date) ;;
           now <- datetime_now ;;
           let current_year := pretty (year (local now)) in
           let yearly_month_status : dict :=
             {[ current_year :=
                  JObj (month_statuses (month adm_dt) (month (local now))) ]} in
           id <- get_next_student_id ;;
           name <- request_get j "name" ;;
           className <- request_get j "className" ;;
           school <- request_get j "school" ;;
           guardianPhone <- request_get j "guardianPhone" ;;
           guardianName <- request_get j "guardianName" ;;
           studentPhone <- request_get j "studentPhone" ;;
           address <- request_get j "address" ;;
           dob_in <- request_get j "dob" ;;
           dob <- (if truthy dob_in then request_get j "dob" else now_ms) ;;
           subjects <- request_get j "subjects" ;;
           fees <- request_get j "fees" ;;
           createdAt <- now_ms ;;
           let student : dict :=
             list_to_map
               [("id", JInt id);
                ("name", name);
                ("className", className);
                ("school", school);
                ("guardianPhone", guardianPhone);
                ("guardianName", guardianName);
                ("studentPhone", studentPhone);
                ("address", address);
                ("dob", dob);
                ("admissionDate", admission_date);
                ("subjects", subjects);
                ("fees", fees);
                ("profileImagePath", JNull);
                ("createdAt", createdAt);
                ("yearlyMonthStatus", JObj yearly_month_status);
                ("yearlyPaymentRecords", JObj ∅);
                ("pendingFeesReminders", JObj ∅)] in
           modify (λ w, with_students (students w ++ [student]) w) ;;
           save_students ;;
           request_set j "status" (JStr "approved") ;;
           processedAt <- now_ms ;;
           request_set j "processedAt" processedAt ;;
           request_set j "studentId" (JInt id) ;;
           save_admissions ;;
           ret (respond 200 [("success", JBool true);
                             ("message", JStr "Admission approved and student created");
                             ("student", JObj student)])
     end)
    is_exception internal_error.

(** [request_body] is [request.json]. *)
Definition reject_admission (request_id : Z) (request_body : json) : M response :=
  try_except
    (found <- find_request request_id ;;
     match found with
     | None => ret (failure 404 "Admission request not found")
     | Some j =>
         st <- request_get j "status" ;;
         if negb (eq_str st "pending")
         then ret (failure 400 "Request already processed")
         else
           let data := if truthy request_body then request_body else JObj ∅ in
           request_set j "status" (JStr "rejected") ;;
           processedAt <- now_ms ;;
           request_set j "processedAt" processedAt ;;
           reason <- lift (get_field data "reason" (JStr "")) ;;
           request_set j "rejectionReason" reason ;;
           save_admissions ;;
           ret (respond 200 [("success", JBool true);
                             ("message", JStr "Admission request rejected")])
     end)
    is_exception internal_error.

End handlers.

(** *** A concrete host

    A host whose local time is UTC, for running the handlers on examples.
    The theorems below hold for every [environment]. *)

(** Days since 1970-01-01 to a civil date of the proleptic Gregorian
    calendar. *)
Definition civil_from_days (days : Z) : Z * Z * Z :=
  let z := days + 719468 in
  let era := z / 146097 in
  let doe := z - era * 146097 in
  let yoe := (doe - doe / 1460 + doe / 36524 - doe / 146096) / 365 in
  let doy := doe - (365 * yoe + yoe / 4 - yoe / 100) in
  let mp := (5 * doy + 2) / 153 in
  let d := doy - (153 * mp + 2) / 5 + 1 in
  let m := if mp <? 10 then mp + 3 else mp - 9 in
  let y := yoe + era * 400 + (if m <=? 2 then 1 else 0) in
  (y, m, d).

Definition utc_datetime (seconds : Z) : datetime :=
  let '(y, m, d) := civil_from_days (seconds / 86400) in
  let s := seconds mod 86400 in
  {| year := y; month := m; day := d;
     hour := s / 3600; minute := (s mod 3600) / 60; second := s mod 60 |}.

(** The whole seconds of a timestamp, rounding down. *)
Definition floor_float (f : float) : result Z :=
  match Prim2SF f with
  | S754_zero _ => Ok 0
  | S754_finite s m e =>
      let v := if s then Z.neg m else Z.pos m in
      Ok (if 0 <=? e then v * 2 ^ e else v / 2 ^ (- e))
  | S754_infinity _ => Raise OverflowError
  | S754_nan => Raise ValueError
  end.

Definition utc_fromtimestamp (f : float) : result datetime :=
  rbind (floor_float f) (λ seconds,
    let d := utc_datetime seconds in
    if (1 <=? year d) && (year d <=? 9999) then Ok d else Raise ValueError).

Definition utc_instant (ms : Z) : instant :=
  {| local := utc_datetime (ms / 1000); epoch_ms := ms |}.

Definition digit_value (c : ascii) : option Z :=
  let n := Z.of_nat (nat_of_ascii c) in
  if (48 <=? n) && (n <=? 57) then Some (n - 48) else None.

(** The value of a non-empty string of decimal digits, after [acc]. *)
Fixpoint digits_value (acc : Z) (s : string) : option Z :=
  match s with
  | EmptyString => Some acc
  | String c s' =>
      match digit_value c with
      | Some d => digits_value (10 * acc + d) s'
      | None => None
      end
  end.

Definition unsigned_value (s : string) : option Z :=
  match s with
  | EmptyString => None
  | _ => digits_value 0 s
  end.

(** [int(s)] for an optional sign followed by decimal digits; the other
    spellings Python accepts (blanks around, underscores) are not read. *)
Definition decimal_int (s : string) : option Z :=
  match s with
  | String "-" s' => Z.opp <$> unsigned_value s'
  | String "+" s' => unsigned_value s'
  | _ => unsigned_value s
  end.

(** [float(s)] for the same spellings. *)
Definition decimal_float (s : string) : option float :=
  match decimal_int s with
  | Some z => match float_of_Z z with Ok f => Some f | Raise _ => None end
  | None => None
  end.

(** Readings one second apart from 2025-03-15 10:30:00 UTC; no file-system
    call fails. *)
Definition utc_host : environment :=
  {| str_to_float := decimal_float;
     str_to_int := decimal_int;
     fromtimestamp := utc_fromtimestamp;
     clock := λ n, utc_instant (1742034600000 + 1000 * Z.of_nat n);
     io_error := λ _ _, false;
     torn_write := λ _, false |}.

(** The same host with a file system on which every [os.replace] fails. *)
Definition read_only_host : environment :=
  {| str_to_float := decimal_float;
     str_to_int := decimal_int;
     fromtimestamp := utc_fromtimestamp;
     clock := clock utc_host;
     io_error := λ _ c, match c with SysReplace _ _ => true | _ => false end;
     torn_write := λ _, false |}.

Definition empty_document : document := {| entities := []; next_id := 1 |}.

(** The state after start-up with no data files. *)
Definition fresh : world :=
  {| students_data := empty_document;
     admissions_data := empty_document;
     disk := {| files := ∅; dirs := ∅ |};
     stdout := [];
     ticks := 0;
     io_steps := 0 |}.

(** *** Observations used in the statements *)

(** The step of [save_json_file] at which the host makes a call fail, if
    it does. *)
Inductive save_step := AtOpen | AtWrite | AtReplace.

Definition save_failure (env : environment) (w : world) (filepath : string)
  : option save_step :=
  let temp_file := filepath +:+ ".tmp" in
  let n := io_steps w in
  if io_error env n (SysOpenWrite temp_file) then Some AtOpen
  else if io_error env (S n) (SysWrite temp_file) then Some AtWrite
  else if io_error env (S (S n)) (SysReplace temp_file filepath) then Some AtReplace
  else None.

(** The path [backup_corrupted_file] moves [filepath] to when the clock
    reads [t]. *)
Definition quarantine_path (filepath : string) (t : instant) : string :=
  path_join BACKUP_DIR (basename filepath +:+ "." +:+ strftime (local t) +:+ ".bak").

(** Whether something exists at [BACKUP_DIR]. *)
Definition backup_dir_exists (w : world) : bool :=
  bool_decide (is_Some (files (disk w) !! BACKUP_DIR))
  || bool_decide (BACKUP_DIR ∈ dirs (disk w)).

(** What the host answers to the calls [load_json_file] makes in state
    [w] after the opening of the file (call [io_steps w]): whether the
    creation of the backup directory, when there is none, fails, and
    whether the move to the backup directory fails. *)
Definition makedirs_fails (env : environment) (w : world) : bool :=
  negb (backup_dir_exists w)
  && io_error env (S (io_steps w)) (SysMakedirs BACKUP_DIR).

Definition rename_fails (env : environment) (w : world) (filepath : string) : bool :=
  let n := if backup_dir_exists w then S (io_steps w) else S (S (io_steps w)) in
  io_error env n
    (SysRename filepath (quarantine_path filepath (clock env (ticks w)))).

(** [x[k]] for an [x] that is a dictionary with the key [k]. *)
Definition sub (x : option json) (k : string) : option json :=
  match x with
  | Some (JObj m) => m !! k
  | _ => None
  end.

(** [student[key][yr][mon]], when every level is a dictionary that has
    the key. *)
Definition entry (s : dict) (key yr mon : string) : option json :=
  sub (sub (s !! key) yr) mon.

Definition status_at (s : dict) (yr mon : string) : option json :=
  entry s "yearlyMonthStatus" yr mon.

Definition record_at (s : dict) (yr mon : string) : option json :=
  entry s "yearlyPaymentRecords" yr mon.

(** The invariant of the data model: a month with a payment record is
    marked paid. *)
Definition paid_months_marked (s : dict) : Prop :=
  ∀ yr mon, is_Some (record_at s yr mon) → status_at s yr mon = Some (JInt 1).

(** A payment map of a student as the data model has it, as far as the year
    [yr] goes: absent, or a dictionary whose entry for [yr], if there is
    one, is a dictionary. *)
Definition year_map_ok (s : dict) (key yr : string) : Prop :=
  match s !! key with
  | None => True
  | Some (JObj m) =>
      match m !! yr with
      | None | Some (JObj _) => True
      | Some _ => False
      end
  | Some _ => False
  end.

(** No stored student carries the id the allocator hands out next. *)
Definition next_id_fresh (w : world) : Prop :=
  Forall (λ s : dict, ∃ v, s !! "id" = Some v ∧ eq_int v (next_id (students_data w)) = false)
         (students w).

(** The fields [update_student] goes through before it reaches ["fees"]. *)
Definition fields_before_fees : list string :=
  ["name"; "className"; "school"; "guardianPhone"; "guardianName";
   "studentPhone"; "address"; "dob"; "admissionDate"; "subjects"].

(** The fields of an admission request that [approve_admission] reads with
    [admission[...]]. *)
Definition approval_fields : list string :=
  ["name"; "className"; "school"; "guardianPhone"; "guardianName";
   "studentPhone"; "address"; "dob"; "subjects"; "fees"].

(** The fresh state with a students file that is not JSON. *)
Definition corrupted_disk : world :=
  with_files {[ STUDENTS_FILE := Invalid "{ 'students': [" ]} fresh.


(** The record [add_student] stores for a request object [m], the id it
    was given, its fees as a float and the reading of the clock. *)
Definition student_record (m : dict) (id : Z) (fees : float) (created : Z) : dict :=
  list_to_map
    [("id", JInt id);
     ("name", default JNull (m !! "name"));
     ("className", default JNull (m !! "className"));
     ("school", default JNull (m !! "school"));
     ("guardianPhone", default JNull (m !! "guardianPhone"));
     ("guardianName", default JNull (m !! "guardianName"));
     ("studentPhone", default JNull (m !! "studentPhone"));
     ("address", default JNull (m !! "address"));
     ("dob", default JNull (m !! "dob"));
     ("admissionDate", default JNull (m !! "admissionDate"));
     ("subjects", default JNull (m !! "subjects"));
     ("fees", JFloat fees);
     ("profileImagePath", default JNull (m !! "profileImagePath"));
     ("createdAt", JInt created);
     ("yearlyMonthStatus", default (JObj ∅) (m !! "yearlyMonthStatus"));
     ("yearlyPaymentRecords", default (JObj ∅) (m !! "yearlyPaymentRecords"));
     ("pendingFeesReminders", default (JObj ∅) (m !! "pendingFeesReminders"))].

(** Example requests: a student with the given fees. *)
Definition student_input (fees : json) : dict :=
  list_to_map
    [("name", JStr "A");
     ("className", JStr "10");
     ("guardianPhone", JStr "555");
     ("dob", JInt 1262304000000);
     ("admissionDate", JInt 1733011200000);
     ("subjects", JList [JStr "Math"]);
     ("fees", fees)].

(** An admission request as [submit_admission_request] stores it, dated
    2024-12-01 00:00:00 UTC. *)
Definition admission_example (status : string) : dict :=
  list_to_map
    [("id", JInt 1);
     ("name", JStr "A");
     ("className", JStr "10");
     ("school", JStr "");
     ("guardianPhone", JStr "555");
     ("guardianName", JStr "");
     ("studentPhone", JStr "");
     ("address", JStr "");
     ("dob", JStr "");
     ("admissionDate", JInt 1733011200000);
     ("subjects", JList [JStr "Math"]);
     ("fees", JFloat 0);
     ("submittedAt", JInt 1733011200000);
     ("status", JStr status)].

(** The fresh state with that one admission request. *)
Definition one_admission (status : string) : world :=
  with_admissions_data {| entities := [admission_example status]; next_id := 2 |} fresh.

(** The state with one stored student, of id 1. *)
Definition stored_student : dict :=
  student_record (student_input (JInt 1500)) 1 1500 1742034600000.

Definition one_student : world :=
  with_students_data {| entities := [stored_student]; next_id := 2 |} fresh.

(** Example update inputs. *)
Definition rename_input : json :=
  JObj (list_to_map [("name", JStr "B"); ("id", JInt 99); ("createdAt", JInt 0)]).

Definition bad_fees_update : dict :=
  list_to_map [("name", JStr "B"); ("fees", JStr "abc"); ("profileImagePath", JStr "b.png")].

(** The [payment_record] that [record_payment] builds for a request object
    [d], its amount as a float and the reading of the clock. *)
Definition payment_record_of (d : dict) (amount : float) (now : Z) : dict :=
  list_to_map
    [("paidDate", default (JInt now) (d !! "paidDate"));
     ("amount", JFloat amount);
     ("notes", default JNull (d !! "notes"));
     ("paymentMethod", default (JStr "cash") (d !! "paymentMethod"))].

(** The year and the month a payment request [d] is for, when the handler
    starts at the [n]-th reading of the clock: the request's own, or the
    clock's. *)
Definition payment_year (env : environment) (d : dict) (n : nat) : json :=
  default (JStr (pretty (year (local (clock env n))))) (d !! "year").

Definition payment_month (env : environment) (d : dict) (n : nat) : result Z :=
  py_int env (default (JInt (month (local (clock env (S n))))) (d !! "month")).

(** Example payments for March 2025. *)
Definition payment_input (amount : Z) : dict :=
  list_to_map [("year", JStr "2025"); ("month", JInt 3); ("amount", JInt amount)].

(** A computation that leaves the list of students as it is, and one that
    keeps the invariant of the students when it holds before. *)
Definition keeps_students {A} (m : M A) : Prop :=
  ∀ w r w', m w = (r, w') → students w' = students w.

Definition preserves_marks {A} (m : M A) : Prop :=
  ∀ w r w', m w = (r, w') →
    Forall paid_months_marked (students w) →
    Forall paid_months_marked (students w').

(** An update that replaces the payment records of March 2025 and says
    nothing of the month statuses. *)
Definition records_only_update : json :=
  JObj (list_to_map
    [("yearlyPaymentRecords",
      JObj {[ "2025" := JObj {[ "3" := JObj (payment_record_of ∅ 1500 0) ]} ]})]).

(** Every stored student has an integer id that the allocator has already
    handed out. *)
Definition ids_allocated (w : world) : Prop :=
  Forall (λ s : dict, ∃ z, s !! "id" = Some (JInt z) ∧ z < next_id (students_data w))
         (students w).

(** A host on which every [os.rename] fails. *)
Definition no_rename_host : environment :=
  {| str_to_float := decimal_float;
     str_to_int := decimal_int;
     fromtimestamp := utc_fromtimestamp;
     clock := clock utc_host;
     io_error := λ _ c, match c with SysRename _ _ => true | _ => false end;
     torn_write := λ _, false |}.

(** The admission request of the example in the specification: no date,
    one subject given as a string. *)
Definition admission_input : json :=
  JObj (list_to_map
    [("name", JStr "A"); ("className", JStr "10"); ("guardianPhone", JStr "555");
     ("subjects", JList [JStr "Math"])]).

(* ===================================================================== *)
(** ** The remaining endpoints *)
(* ===================================================================== *)

(** [[r for r in l if r["status"] == st]] *)
Fixpoint filter_status (l : list dict) (st : string) : result (list dict) :=
  match l with
  | [] => Ok []
  | r :: l' =>
      match r !! "status" with
      | None => Raise (KeyError (JStr "status"))
      | Some v =>
          rbind (filter_status l' st)
                (λ rest, Ok (if eq_str v st then r :: rest else rest))
      end
  end.

Section endpoints.
Context (env : environment).

(** [status_filter] is [request.args.get('status', None)].  Not under
    [try]. *)
Definition get_admission_requests (status_filter : option string) : M response :=
  l <- gets requests ;;
  l <- (match status_filter with
        | Some st =>
            if negb (String.eqb st "") then lift (filter_status l st) else ret l
        | None => ret l
        end) ;;
  ret (respond 200 [("success", JBool true);
                    ("requests", JList (JObj <$> l));
                    ("count", JInt (Z.of_nat (length l)))]).




End endpoints.


(** *** States and hosts of the further examples *)








End Server.

Import Server.
#[local] Open Scope py_scope.

(* ===================================================================== *)
(** * Properties *)
(* ===================================================================== *)

(** ** Paths *)

Lemma temp_file_differs (filepath : string) : filepath ≠ filepath +:+ ".tmp".
Proof.
  induction filepath as [|c p IH]; simpl.
  - discriminate.
  - intros H. injection H as H. by apply IH.
Qed.

(** Case analysis on what the host answers to the next file-system call. *)
Ltac case_io :=
  match goal with
  | |- context [io_error ?env ?n ?c] =>
      let E := fresh "Eio" in destruct (io_error env n c) eqn:E
  end.

(** Running the monad: the combinators, the primitive operations and the
    accessors of the world, unfolded and reduced. *)
Ltac run :=
  cbv beta iota zeta delta
    [bind ret raise lift gets modify try_except
     datetime_now now_ms print sys os_path_exists os_makedirs os_remove move
     os_rename os_replace open_write json_dump json_load
     with_students_data with_admissions_data with_files with_dirs with_stdout
     with_ticks with_io_steps with_students with_requests
     students requests
     students_data admissions_data disk stdout ticks io_steps files dirs
     entities next_id
     is_ioerror is_exception is_decode_or_ioerror internal_error negb].

(** ** Saving *)

Section saving.
Context (env : environment).

(** Whatever the host does, [save_json_file] returns normally and
    touches nothing but the disk, the output and the count of
    file-system calls. *)
Lemma save_json_file_returns filepath data w :
  ∃ fs out n,
    save_json_file env filepath data w =
      (Ok tt, with_io_steps n (with_stdout out (with_files fs w))).
Proof.
  destruct w as [sd ad [fs ds] out tk io].
  unfold save_json_file. run.
  repeat (case_io; run).
  all: rewrite ?lookup_insert_eq; run.
  all: try (case_match; run).
  all: eauto.
Qed.

(** C3 (as amended).  When a call of [save_json_file] fails at the
    opening of the temporary file, at the writing or at the rename, the
    temporary file is gone afterwards, the file at [filepath] holds what
    it held before, and the error is printed, not raised: the call
    returns normally. *)
Theorem save_failure_is_printed_not_raised filepath data w step :
  save_failure env w filepath = Some step →
  ∃ w',
    save_json_file env filepath data w = (Ok tt, w') ∧
    files (disk w') !! (filepath +:+ ".tmp") = None ∧
    files (disk w') !! filepath = files (disk w) !! filepath ∧
    stdout w' = (stdout w ++ [ErrorSaving filepath])%list ∧
    students_data w' = students_data w ∧
    admissions_data w' = admissions_data w.
Proof.
  pose proof (temp_file_differs filepath) as Hne.
  destruct w as [sd ad [fs ds] out tk io].
  unfold save_failure, save_json_file. run. intros Hfail.
  repeat (case_io; run); try discriminate.
  all: rewrite ?lookup_insert_eq; run.
  all: try (case_match; run).
  all: eexists; split; [reflexivity|]; run.
  all: rewrite ?lookup_delete_eq, ?lookup_delete_ne, ?lookup_insert_ne by done.
  all: try done.
  repeat split; try done.
  match goal with H : _ || _ = false |- _ => apply orb_false_iff in H as [H _];
    apply bool_decide_eq_false_1 in H end.
  by apply eq_None_not_Some.
Qed.

(** Whether it fails or not, a call leaves at [filepath] either what was
    there or the complete new document. *)
Lemma save_json_file_atomic filepath data w fs out n :
  save_json_file env filepath data w
    = (Ok tt, with_io_steps n (with_stdout out (with_files fs w))) →
  fs !! filepath = files (disk w) !! filepath ∨ fs !! filepath = Some (Serialized data).
Proof.
  pose proof (temp_file_differs filepath) as Hne.
  destruct w as [sd ad [fs0 ds] out0 tk io].
  unfold save_json_file. run.
  repeat (case_io; run).
  all: rewrite ?lookup_insert_eq; run.
  all: try (case_match; run).
  all: intros [= <- _ _].
  all: rewrite ?lookup_delete_ne, ?lookup_insert_eq, ?lookup_insert_ne by done; auto.
Qed.
End saving.

(** C3, as stated, fails: on a host where [os.replace] fails, saving the
    students document fails at the rename, and the call returns normally
    instead of raising the error to its caller. *)
Lemma save_error_not_surfaced :
  save_failure read_only_host fresh STUDENTS_FILE = Some AtReplace ∧
  ¬ ∃ e, fst (save_json_file read_only_host STUDENTS_FILE (students_json fresh) fresh)
         = Raise e.
Proof.
  split; [reflexivity|].
  intros [e He]. vm_compute in He. discriminate.
Qed.

(** Saving the empty students document on the host where [os.replace] fails. *)
Lemma save_failure_is_printed_not_raised_witness :
  ∃ w',
    save_json_file read_only_host STUDENTS_FILE (students_json fresh) fresh = (Ok tt, w') ∧
    files (disk w') !! (STUDENTS_FILE +:+ ".tmp") = None ∧
    files (disk w') !! STUDENTS_FILE = files (disk fresh) !! STUDENTS_FILE ∧
    stdout w' = (stdout fresh ++ [ErrorSaving STUDENTS_FILE])%list ∧
    students_data w' = students_data fresh ∧
    admissions_data w' = admissions_data fresh.
Proof.
  apply (save_failure_is_printed_not_raised read_only_host STUDENTS_FILE
           (students_json fresh) fresh AtReplace).
  reflexivity.
Defined.

(** ** Loading *)

Section loading.
Context (env : environment).

(** C4 (as amended).  When the file at [filepath] holds text that the JSON
    parser rejects, and the backup directory exists or its creation does
    not fail, [load_json_file] does not raise: it prints the error and
    returns the default document.  When the move to the backup directory
    goes through, the bad file is afterwards in the backup directory under
    its name followed by the time of the call; when the move fails, that
    failure is printed too and the files are as they were.  When nothing
    exists at [filepath], the default is returned and nothing changes. *)
Theorem load_json_file_quarantines filepath default_data w :
  (∀ c, files (disk w) !! filepath = Some c →
        decode c = Raise JSONDecodeError →
        makedirs_fails env w = false →
        ∃ w', load_json_file env filepath default_data w = (Ok default_data, w') ∧
              let backup_path := quarantine_path filepath (clock env (ticks w)) in
              if rename_fails env w filepath
              then files (disk w') = files (disk w) ∧
                   stdout w' = (stdout w ++ [ErrorLoading filepath; BackupFailed])%list
              else files (disk w') !! backup_path = Some c ∧
                   stdout w' =
                     (stdout w ++ [ErrorLoading filepath; BackedUp backup_path])%list) ∧
  (files (disk w) !! filepath = None →
   filepath ∉ dirs (disk w) →
   load_json_file env filepath default_data w = (Ok default_data, w)).
Proof.
  destruct w as [sd ad [fs ds] out tk io].
  unfold load_json_file, backup_corrupted_file, makedirs_fails, rename_fails,
    backup_dir_exists, quarantine_path.
  run. split.
  - intros c Hc Hbad. rewrite Hc. run.
    rewrite (bool_decide_eq_true_2 (is_Some (Some c))) by eauto.
    rewrite orb_true_l. run.
    destruct (io_error env io (SysOpenRead filepath)); run; rewrite ?Hc, ?Hbad; run.
    all: destruct (_ || _); run.
    all: rewrite ?andb_false_l, ?andb_true_l; intros Hmk; rewrite ?Hmk; run.
    all: case_io; run; rewrite ?Hc; run.
    all: eexists; (split; [reflexivity|]); run.
    all: rewrite ?lookup_insert_eq, <- ?app_assoc; done.
  - intros Hnone Hnd. rewrite Hnone.
    rewrite bool_decide_eq_false_2 by (by intros [? ?]).
    by rewrite bool_decide_eq_false_2.
Qed.
End loading.

(** C4, as stated, fails: on a host where [os.rename] fails, loading a
    students file that is not JSON returns the default and prints the two
    errors, and no copy of the bad file is left in the backup directory
    (the only file on the disk is the bad file, where it was). *)
Lemma load_leaves_no_quarantined_copy :
  decode (Invalid "{ 'students': [") = Raise JSONDecodeError ∧
  ∃ w',
    load_json_file no_rename_host STUDENTS_FILE (students_json fresh) corrupted_disk
      = (Ok (students_json fresh), w') ∧
    stdout w' = [ErrorLoading STUDENTS_FILE; BackupFailed] ∧
    files (disk w') = {[ STUDENTS_FILE := Invalid "{ 'students': [" ]} ∧
    ¬ ∃ c, files (disk w')
             !! quarantine_path STUDENTS_FILE (clock no_rename_host (ticks corrupted_disk))
           = Some c.
Proof.
  split; [reflexivity|].
  eexists. split; [vm_compute; reflexivity|].
  repeat split. intros [c Hc]. vm_compute in Hc. discriminate.
Qed.

(** Loading a students file that is not JSON on the UTC host: the file is
    moved to the backup directory; and loading when there is no file. *)
Lemma load_json_file_quarantines_witness :
  (∃ w', load_json_file utc_host STUDENTS_FILE (students_json fresh) corrupted_disk
           = (Ok (students_json fresh), w') ∧
         files (disk w') !! "backups/students_data.json.20250315_103000.bak"
           = Some (Invalid "{ 'students': [") ∧
         stdout w' = [ErrorLoading STUDENTS_FILE;
                      BackedUp "backups/students_data.json.20250315_103000.bak"]) ∧
  load_json_file utc_host STUDENTS_FILE (students_json fresh) fresh
    = (Ok (students_json fresh), fresh).
Proof.
  split.
  - exact (proj1 (load_json_file_quarantines utc_host STUDENTS_FILE
                    (students_json fresh) corrupted_disk)
             (Invalid "{ 'students': [") eq_refl eq_refl eq_refl).
  - apply (load_json_file_quarantines utc_host STUDENTS_FILE (students_json fresh) fresh).
    + reflexivity.
    + apply not_elem_of_empty.
Defined.


(** ** Looking objects up by id *)

Lemma find_by_id_Some (l : list dict) id i :
  find_by_id l id = Ok (Some i) →
  ∃ s v, l !! i = Some s ∧ s !! "id" = Some v ∧ eq_int v id = true.
Proof.
  revert i. induction l as [|s l IH]; intros i; simpl; [discriminate|].
  destruct (s !! "id") as [v|] eqn:Hid; [|discriminate].
  destruct (eq_int v id) eqn:Heq.
  - intros [= <-]. eauto.
  - destruct (find_by_id l id) as [[k|]|] eqn:Hf; simpl; try discriminate.
    intros [= <-]. destruct (IH k eq_refl) as (s' & v' & ? & ? & ?). eauto.
Qed.

(** An assignment that leaves ["id"] alone does not change what a lookup
    by id finds. *)
Lemma find_by_id_alter (f : dict → dict) (l : list dict) i id :
  (∀ s, f s !! "id" = s !! "id") →
  find_by_id (alter f i l) id = find_by_id l id.
Proof.
  intros Hf. revert i. induction l as [|s l IH]; intros [|i]; simpl; try done.
  - by rewrite Hf.
  - specialize (IH i). unfold alter in IH. by rewrite IH.
Qed.

Lemma find_by_id_app_fresh (l : list dict) (s : dict) id :
  Forall (λ s : dict, ∃ v, s !! "id" = Some v ∧ eq_int v id = false) l →
  s !! "id" = Some (JInt id) →
  find_by_id (l ++ [s]) id = Ok (Some (length l)).
Proof.
  intros Hl Hs. induction Hl as [|s' l (v & Hv & Hne) _ IH]; simpl.
  - rewrite Hs. simpl. by rewrite Z.eqb_refl.
  - rewrite Hv, Hne. simpl in IH. by rewrite IH.
Qed.

(** Running a handler: the operations on the two collections as well. *)
Ltac run_handler :=
  cbv beta iota zeta delta
    [find_student find_request student_at request_at student_get request_get
     student_set request_set get_or
     has_field field get_field failure respond];
  run.

(** ** Admissions that were already processed *)

Section processed.
Context (env : environment).

(** C2.  For an admission request whose status is not "pending", both
    [approve_admission] and [reject_admission] answer 400 "Request
    already processed", and the state after the call is the state
    before it: the documents in memory, the disk, everything. *)
Theorem processed_admission_is_final request_id request_body w j admission st :
  find_by_id (requests w) request_id = Ok (Some j) →
  requests w !! j = Some admission →
  admission !! "status" = Some st →
  eq_str st "pending" = false →
  approve_admission env request_id w
    = (Ok (failure 400 "Request already processed"), w) ∧
  reject_admission env request_id request_body w
    = (Ok (failure 400 "Request already processed"), w).
Proof.
  intros Hfind Hj Hst Hne.
  destruct w as [sd [reqs nid] dk out tk io]. revert Hfind Hj. run. intros Hfind Hj.
  unfold approve_admission, reject_admission. run_handler.
  rewrite Hfind, Hj. unfold getitem. simpl. rewrite Hst, Hne. done.
Qed.
End processed.

(** An approved admission request, approved and rejected again. *)
Lemma processed_admission_is_final_witness :
  approve_admission utc_host 1 (one_admission "approved")
    = (Ok (failure 400 "Request already processed"), one_admission "approved") ∧
  reject_admission utc_host 1 JNull (one_admission "approved")
    = (Ok (failure 400 "Request already processed"), one_admission "approved").
Proof.
  apply (processed_admission_is_final utc_host 1 JNull (one_admission "approved")
           0%nat (admission_example "approved") (JStr "approved"));
    reflexivity.
Defined.

(** ** Persisting the documents from the handlers *)

Section persisting.
Context (env : environment).

Lemma save_students_returns w :
  ∃ fs out n,
    save_students env w = (Ok tt, with_io_steps n (with_stdout out (with_files fs w))).
Proof.
  unfold save_students. run.
  destruct (save_json_file_returns env STUDENTS_FILE (students_json w) w)
    as (fs & out & n & ->).
  eauto.
Qed.

Lemma save_admissions_returns w :
  ∃ fs out n,
    save_admissions env w = (Ok tt, with_io_steps n (with_stdout out (with_files fs w))).
Proof.
  unfold save_admissions. run.
  destruct (save_json_file_returns env ADMISSIONS_FILE (admissions_json w) w)
    as (fs & out & n & ->).
  eauto.
Qed.

Lemma get_next_student_id_returns w :
  ∃ fs out n,
    get_next_student_id env w =
      (Ok (next_id (students_data w)),
       with_io_steps n (with_stdout out (with_files fs
         (with_students_data
            {| entities := students w; next_id := next_id (students_data w) + 1 |} w)))).
Proof.
  unfold get_next_student_id. run.
  match goal with |- context [save_students env ?w0] =>
    destruct (save_students_returns w0) as (fs & out & n & ->) end.
  eauto.
Qed.
End persisting.

(** Stepping over a save, whatever the host made of it. *)
Ltac step_save :=
  match goal with
  | |- context [save_students ?env ?w] =>
      let fs := fresh "fs" in let out := fresh "out" in let n := fresh "n" in
      destruct (save_students_returns env w) as (fs & out & n & ->)
  | |- context [save_admissions ?env ?w] =>
      let fs := fresh "fs" in let out := fresh "out" in let n := fresh "n" in
      destruct (save_admissions_returns env w) as (fs & out & n & ->)
  | |- context [get_next_student_id ?env ?w] =>
      let fs := fresh "fs" in let out := fresh "out" in let n := fresh "n" in
      destruct (get_next_student_id_returns env w) as (fs & out & n & ->)
  end; run.

(** ** Creating students *)

Lemma first_missing_present (m : dict) fields :
  Forall (λ k, is_Some (m !! k)) fields →
  first_missing fields (JObj m) = Ok None.
Proof.
  induction 1 as [|k fields Hk _ IH]; simpl; [done|].
  by rewrite bool_decide_eq_true_2.
Qed.

Section creating.
Context (env : environment).

(** What [add_student] does with a request object that has every
    required field, by the outcome of [float(data["fees"])]. *)
Lemma add_student_outcome (m : dict) w fees :
  Forall (λ k, is_Some (m !! k)) required_student_fields →
  m !! "fees" = Some fees →
  ∃ fs out n,
    add_student env (JObj m) w =
      match py_float env fees with
      | Ok f =>
          let id := next_id (students_data w) in
          let student := student_record m id f (epoch_ms (clock env (ticks w))) in
          (Ok (respond 201 [("success", JBool true);
                            ("student", JObj student);
                            ("id", JInt id)]),
           with_io_steps n (with_stdout out (with_files fs
             (with_ticks (S (ticks w))
                (with_students_data
                   {| entities := students w ++ [student]; next_id := id + 1 |} w)))))
      | Raise e =>
          (Ok {| payload := ErrorOf e; code := 500 |},
           with_io_steps n (with_stdout out (with_files fs
             (with_students_data
                {| entities := students w;
                   next_id := next_id (students_data w) + 1 |} w))))
      end.
Proof.
  intros Hreq Hfees.
  pose proof (first_missing_present m _ Hreq) as Hmiss.
  unfold required_student_fields in Hreq.
  repeat match goal with
         | H : Forall _ (_ :: _) |- _ => apply Forall_cons in H as [[? ?] H]
         end.
  match goal with H : m !! "fees" = Some ?x |- _ =>
    assert (x = fees) as -> by congruence; clear H end.
  destruct w as [[sts nid] ad dk out tk io].
  unfold add_student, student_record. run_handler. rewrite Hmiss. run.
  step_save. unfold getitem.
  repeat match goal with H : m !! _ = Some _ |- _ => rewrite H; clear H end.
  run.
  destruct (py_float env fees) as [f|e] eqn:Hf; run.
  - step_save. eauto.
  - assert (is_exception e = true) as He.
    { destruct fees; simpl in Hf; unfold float_of_Z in Hf;
        repeat case_match; by simplify_eq. }
    revert He. run. intros ->. eauto.
Qed.

(** C5 (as amended).  For a create input that has every required field:
    when [float()] rejects the value of ["fees"], [add_student] answers
    500 with the text of the exception, not 400, and stores no student;
    when [float()] accepts it, [add_student] answers 201 and stores the
    resulting float, whatever its sign. *)
Theorem add_student_fees_coercion (m : dict) w fees :
  Forall (λ k, is_Some (m !! k)) required_student_fields →
  m !! "fees" = Some fees →
  ∃ r w',
    add_student env (JObj m) w = (Ok r, w') ∧
    match py_float env fees with
    | Raise e =>
        r = {| payload := ErrorOf e; code := 500 |} ∧
        students w' = students w
    | Ok f =>
        code r = 201 ∧
        ∃ student,
          students w' = (students w ++ [student])%list ∧
          student !! "fees" = Some (JFloat f)
    end.
Proof.
  intros Hreq Hfees.
  destruct (add_student_outcome m w fees Hreq Hfees) as (fs & out & n & ->).
  destruct (py_float env fees) as [f|e]; do 2 eexists; (split; [reflexivity|]).
  - split; [done|]. eexists. split; [by destruct w as [[??]?????]|]. done.
  - split; [done|]. by destruct w as [[??]?????].
Qed.

(** C9.  For a create input that has every required field and fees that
    [float()] accepts, in a state where no stored student has the id the
    allocator hands out next, [add_student] answers 201 with a record
    and an id, and [get_student] with that id then answers 200 with the
    same record. *)
Theorem create_then_get (m : dict) w fees f :
  Forall (λ k, is_Some (m !! k)) required_student_fields →
  m !! "fees" = Some fees →
  py_float env fees = Ok f →
  next_id_fresh w →
  ∃ student w',
    add_student env (JObj m) w
      = (Ok (respond 201 [("success", JBool true);
                          ("student", JObj student);
                          ("id", JInt (next_id (students_data w)))]), w') ∧
    get_student (next_id (students_data w)) w'
      = (Ok (respond 200 [("success", JBool true); ("student", JObj student)]), w').
Proof.
  intros Hreq Hfees Hf Hfresh.
  destruct (add_student_outcome m w fees Hreq Hfees) as (fs & out & n & ->).
  rewrite Hf. do 2 eexists. split; [reflexivity|].
  destruct w as [[sts nid] ad dk out0 tk io].
  unfold next_id_fresh in Hfresh. revert Hfresh. unfold get_student. run_handler.
  intros Hfresh.
  rewrite (find_by_id_app_fresh sts _ nid Hfresh) by done. run.
  by rewrite list_lookup_middle.
Qed.
End creating.

(** C5, as stated, fails.  With fees "abc", [add_student] answers 500, not
    the 400 of a validation failure; with fees -5 it answers 201 and
    stores the negative amount -5.0. *)
Lemma add_student_fees_not_validated :
  (∃ w', add_student utc_host (JObj (student_input (JStr "abc"))) fresh
           = (Ok {| payload := ErrorOf ValueError; code := 500 |}, w')) ∧
  (∃ r w' student,
     add_student utc_host (JObj (student_input (JInt (-5)))) fresh = (Ok r, w') ∧
     code r = 201 ∧
     students w' = [student] ∧
     student !! "fees" = Some (JFloat (-5)%float) ∧
     PrimFloat.ltb (-5)%float 0%float = true).
Proof.
  split.
  - eexists. vm_compute. reflexivity.
  - do 3 eexists. split; [vm_compute; reflexivity|].
    vm_compute. repeat split; reflexivity.
Qed.

(** A create input with the fees "abc". *)
Lemma add_student_fees_coercion_witness :
  ∃ r w',
    add_student utc_host (JObj (student_input (JStr "abc"))) fresh = (Ok r, w') ∧
    match py_float utc_host (JStr "abc") with
    | Raise e =>
        r = {| payload := ErrorOf e; code := 500 |} ∧
        students w' = students fresh
    | Ok f =>
        code r = 201 ∧
        ∃ student,
          students w' = (students fresh ++ [student])%list ∧
          student !! "fees" = Some (JFloat f)
    end.
Proof.
  apply (add_student_fees_coercion utc_host (student_input (JStr "abc")) fresh (JStr "abc")).
  - unfold required_student_fields.
    repeat (apply Forall_cons; split; [eexists; reflexivity|]). by apply Forall_nil.
  - reflexivity.
Defined.

(** Creating a student in the fresh state and reading it back. *)
Lemma create_then_get_witness :
  ∃ student w',
    add_student utc_host (JObj (student_input (JInt 1500))) fresh
      = (Ok (respond 201 [("success", JBool true);
                          ("student", JObj student);
                          ("id", JInt (next_id (students_data fresh)))]), w') ∧
    get_student (next_id (students_data fresh)) w'
      = (Ok (respond 200 [("success", JBool true); ("student", JObj student)]), w').
Proof.
  apply (create_then_get utc_host (student_input (JInt 1500)) fresh (JInt 1500) 1500%float).
  - unfold required_student_fields.
    repeat (apply Forall_cons; split; [eexists; reflexivity|]). by apply Forall_nil.
  - reflexivity.
  - reflexivity.
  - constructor.
Defined.

(** ** Updating students *)

Lemma NoDup_updatable_fields : NoDup updatable_fields.
Proof. by apply (bool_decide_unpack _). Qed.

Section updating.
Context (env : environment).

(** The loop of [update_student] changes the student at position [i]
    and nothing else, and leaves alone every field that is not in the
    list or not in the input, however the loop ends. *)
Lemma update_fields_frame i (data : json) fields w r w' :
  update_fields env i data fields w = (r, w') →
  ∃ g : dict → dict,
    w' = with_students (alter g i (students w)) w ∧
    ∀ s k, k ∉ fields ∨ has_field data k ≠ Ok true → g s !! k = s !! k.
Proof.
  revert w r w'. induction fields as [|f fields IH]; intros w r w'; cbn [update_fields].
  - intros [= <- <-]. exists id. split; [|done].
    destruct w as [[sts nid] ad dk out tk io]. run. by rewrite list_alter_id.
  - assert (∃ g : dict → dict,
               w = with_students (alter g i (students w)) w ∧
               ∀ s k, k ∉ f :: fields ∨ has_field data k ≠ Ok true → g s !! k = s !! k)
      as Hstop.
    { exists id. split; [|done].
      destruct w as [[sts nid] ad dk out tk io]. run. by rewrite list_alter_id. }
    assert (∀ v, has_field data f = Ok true →
             update_fields env i data fields
               (with_students (alter (insert f v) i (students w)) w) = (r, w') →
             ∃ g : dict → dict,
               w' = with_students (alter g i (students w)) w ∧
               ∀ s k, k ∉ f :: fields ∨ has_field data k ≠ Ok true → g s !! k = s !! k)
      as Hset.
    { intros v Hpresent Hrest. destruct (IH _ _ _ Hrest) as (g & -> & Hg).
      exists (g ∘ insert f v). split.
      - destruct w as [[sts nid] ad dk out tk io]. run_handler.
        by rewrite list_alter_alter_eq.
      - intros s k Hk. simpl. rewrite Hg.
        + apply lookup_insert_ne. intros <-. destruct Hk as [Hk|Hk]; [|done].
          apply Hk. by left.
        + destruct Hk as [Hk|Hk]; [left|by right]. intros ?. apply Hk. by right. }
    revert Hset. run_handler. intros Hset.
    destruct (contains data (JStr f)) as [[|]|e] eqn:Hpresent; run.
    + destruct (String.eqb f "fees"); run.
      * destruct (getitem data (JStr f)) as [v|e]; run; [|by intros [= <- <-]].
        destruct (py_float env v) as [x|e]; run; [|by intros [= <- <-]].
        apply (Hset (JFloat x)). done.
      * destruct (getitem data (JStr f)) as [v|e]; run; [|by intros [= <- <-]].
        apply (Hset v). done.
    + intros Hrest. destruct (IH _ _ _ Hrest) as (g & -> & Hg).
      exists g. split; [done|]. intros s k [Hk|Hk]; apply Hg; [left|by right].
      intros ?. apply Hk. by right.
    + by intros [= <- <-].
Qed.

Lemma py_float_raises_exception x e :
  py_float env x = Raise e → is_exception e = true.
Proof.
  destruct x; simpl; unfold float_of_Z; repeat case_match; by intros [= <-].
Qed.

(** The loop on a request object: it stops only at a value of ["fees"]
    that [float()] rejects, with the fields before ["fees"] already
    assigned; otherwise it assigns every field of the list that the
    object has. *)
Lemma update_fields_object i (m : dict) fields w r w' :
  NoDup fields →
  update_fields env i (JObj m) fields w = (r, w') →
  ∃ g : dict → dict,
    w' = with_students (alter g i (students w)) w ∧
    (∀ s k, k ∉ fields → g s !! k = s !! k) ∧
    match r with
    | Ok _ =>
        ∀ s k v, k ∈ fields → m !! k = Some v →
          if String.eqb k "fees"
          then (∃ x, py_float env v = Ok x ∧ g s !! k = Some (JFloat x))
          else g s !! k = Some v
    | Raise e =>
        ∃ pre post fees,
          fields = (pre ++ "fees" :: post)%list ∧
          ("fees" ∉ pre) ∧
          m !! "fees" = Some fees ∧
          py_float env fees = Raise e ∧
          (∀ s k v, k ∈ pre → m !! k = Some v → g s !! k = Some v) ∧
          (∀ s k, k ∉ pre → g s !! k = s !! k)
    end.
Proof.
  intros Hnd. revert w r w'.
  induction fields as [|f fields IH]; intros w r w'; cbn [update_fields].
  - intros [= <- <-]. exists id. split; [|split; [done|]].
    + destruct w as [[sts nid] ad dk out tk io]. run. by rewrite list_alter_id.
    + intros s k v Hk. by apply elem_of_nil in Hk.
  - apply NoDup_cons in Hnd as [Hf Hnd]. specialize (IH Hnd).
    run_handler. unfold getitem, contains.
    destruct (m !! f) as [v|] eqn:Hv.
    + rewrite bool_decide_eq_true_2 by eauto. run.
      destruct (String.eqb f "fees") eqn:Hfees; run.
      * apply String.eqb_eq in Hfees as ->.
        destruct (py_float env v) as [x|e] eqn:Hx; run.
        -- intros Hrest. destruct (IH _ _ _ Hrest) as (g & -> & Hframe & Hg).
           exists (g ∘ insert "fees" (JFloat x)). split; [|split].
           ++ destruct w as [[sts nid] ad dk out tk io]. run.
              by rewrite list_alter_alter_eq.
           ++ intros s k Hk. simpl. rewrite Hframe.
              ** apply lookup_insert_ne. intros <-. apply Hk. by left.
              ** intros ?. apply Hk. by right.
           ++ destruct r as [[]|e].
              ** intros s k v' [->|Hk]%elem_of_cons Hk'.
                 --- simpl. exists x. rewrite Hframe by done.
                     rewrite lookup_insert_eq. by simplify_eq.
                 --- apply (Hg (<["fees" := JFloat x]> s) k v' Hk Hk').
              ** destruct Hg as (pre & post & _ & -> & _). exfalso. apply Hf.
                 apply elem_of_app. right. by left.
        -- intros [= <- <-]. exists id. split; [|split; [done|]].
           ++ destruct w as [[sts nid] ad dk out tk io]. run. by rewrite list_alter_id.
           ++ exists [], fields, v. repeat split; try done.
              ** by intros ?%elem_of_nil.
              ** intros s k v' Hk. by apply elem_of_nil in Hk.
      * apply String.eqb_neq in Hfees.
        intros Hrest. destruct (IH _ _ _ Hrest) as (g & -> & Hframe & Hg).
        exists (g ∘ insert f v). split; [|split].
        -- destruct w as [[sts nid] ad dk out tk io]. run.
           by rewrite list_alter_alter_eq.
        -- intros s k Hk. simpl. rewrite Hframe.
           ++ apply lookup_insert_ne. intros <-. apply Hk. by left.
           ++ intros ?. apply Hk. by right.
        -- destruct r as [[]|e].
           ++ intros s k v' [->|Hk]%elem_of_cons Hk'.
              ** apply String.eqb_neq in Hfees. rewrite Hfees. simpl.
                 rewrite Hframe by done. rewrite lookup_insert_eq. by simplify_eq.
              ** apply (Hg (<[f := v]> s) k v' Hk Hk').
           ++ destruct Hg as (pre & post & fees & -> & Hpre & Hm & Hx & Hset & Hkeep).
              exists (f :: pre), post, fees. repeat split; try done.
              ** intros [?|?]%elem_of_cons; by simplify_eq.
              ** intros s k v' [->|Hk]%elem_of_cons Hk'; simpl.
                 --- rewrite Hkeep.
                     +++ rewrite lookup_insert_eq. by simplify_eq.
                     +++ intros ?. apply Hf. apply elem_of_app. by left.
                 --- by apply Hset.
              ** intros s k Hk. simpl. rewrite Hkeep.
                 --- apply lookup_insert_ne. intros <-. apply Hk. by left.
                 --- intros ?. apply Hk. by right.
    + rewrite bool_decide_eq_false_2 by (by intros [? ?]). run.
      intros Hrest. destruct (IH _ _ _ Hrest) as (g & -> & Hframe & Hg).
      exists g. split; [done|split].
      * intros s k Hk. apply Hframe. intros ?. apply Hk. by right.
      * destruct r as [[]|e].
        -- intros s k v' [->|Hk]%elem_of_cons Hk'; [by simplify_eq|].
           by apply Hg.
        -- destruct Hg as (pre & post & fees & -> & Hpre & Hm & Hx & Hset & Hkeep).
           exists (f :: pre), post, fees. repeat split; try done.
           ** intros [?|?]%elem_of_cons; by simplify_eq.
           ** intros s k v' [->|Hk]%elem_of_cons Hk'; [by simplify_eq|].
              by apply Hset.
           ** intros s k Hk. apply Hkeep. intros ?. apply Hk. by right.
Qed.

Lemma has_field_raises_exception (data : json) f e :
  has_field data f = Raise e → is_exception e = true.
Proof. destruct data; simpl; by intros [= <-]. Qed.

Lemma field_raises_exception (data : json) f e :
  field data f = Raise e → is_exception e = true.
Proof.
  destruct data; simpl; try (by intros [= <-]).
  case_match; by intros [= <-].
Qed.

Lemma update_fields_raises_exception i (data : json) fields w e w' :
  update_fields env i data fields w = (Raise e, w') → is_exception e = true.
Proof.
  revert w. induction fields as [|f fields IH]; intros w; cbn [update_fields];
    [done|].
  cbv beta iota zeta delta [bind lift ret].
  destruct (has_field data f) as [[|]|e1] eqn:Hpresent.
  - destruct (String.eqb f "fees").
    + destruct (field data f) as [v|e1] eqn:Hfield.
      * destruct (py_float env v) as [x|e1] eqn:Hx.
        -- run_handler. apply IH.
        -- intros [= <- <-]. by eapply py_float_raises_exception.
      * intros [= <- <-]. by eapply field_raises_exception.
    + destruct (field data f) as [v|e1] eqn:Hfield.
      * run_handler. apply IH.
      * intros [= <- <-]. by eapply field_raises_exception.
  - apply IH.
  - intros [= <- <-]. by eapply has_field_raises_exception.
Qed.

(** C7.  For a student that exists, whatever the update input is,
    [update_student] answers, and the stored record differs from the one
    before the call at most in the fields of the allow-list that the
    input has: every other field of the record is unchanged, among them
    ["id"] and ["createdAt"], and so is every other student.  When the
    answer is 200 and the input is an object, each allow-listed field
    of the input has been assigned (["fees"] as a float). *)
Theorem update_student_frame student_id (data : json) w i s :
  find_by_id (students w) student_id = Ok (Some i) →
  students w !! i = Some s →
  ∃ resp w' s',
    update_student env student_id data w = (Ok resp, w') ∧
    students w' !! i = Some s' ∧
    (∀ k, k ∉ updatable_fields ∨ has_field data k ≠ Ok true → s' !! k = s !! k) ∧
    s' !! "id" = s !! "id" ∧
    s' !! "createdAt" = s !! "createdAt" ∧
    length (students w') = length (students w) ∧
    (∀ j, j ≠ i → students w' !! j = students w !! j) ∧
    (∀ m k v,
       data = JObj m → code resp = 200 → k ∈ updatable_fields → m !! k = Some v →
       if String.eqb k "fees"
       then (∃ x, py_float env v = Ok x ∧ s' !! k = Some (JFloat x))
       else s' !! k = Some v).
Proof.
  intros Hfind Hs.
  destruct (update_fields env i data updatable_fields w) as [r1 w1] eqn:Hupd.
  destruct (update_fields_frame _ _ _ _ _ _ Hupd) as (g & Hw1 & Hg).
  assert (students w1 !! i = Some (g s)) as Hs1.
  { rewrite Hw1. destruct w as [[sts nid] ad dk out tk io]. revert Hs. run.
    intros Hs. by rewrite list_lookup_alter_eq, Hs. }
  assert (length (students w1) = length (students w)) as Hlen.
  { rewrite Hw1. destruct w as [[sts nid] ad dk out tk io]. run.
    apply length_alter. }
  assert (∀ j, j ≠ i → students w1 !! j = students w !! j) as Hothers.
  { intros j Hj. rewrite Hw1. destruct w as [[sts nid] ad dk out tk io]. run.
    by apply list_lookup_alter_ne. }
  assert (∀ m k v,
            data = JObj m → r1 = Ok tt → k ∈ updatable_fields → m !! k = Some v →
            if String.eqb k "fees"
            then (∃ x, py_float env v = Ok x ∧ g s !! k = Some (JFloat x))
            else g s !! k = Some v) as Hassigned.
  { intros m k v -> -> Hk Hv.
    destruct (update_fields_object _ _ _ _ _ _ NoDup_updatable_fields Hupd)
      as (g' & Hw1' & _ & Hg').
    assert (g s = g' s) as ->; [|by apply Hg'].
    rewrite Hw1' in Hs1. destruct w as [[sts nid] ad dk out tk io].
    revert Hs Hs1. run. intros Hs. rewrite list_lookup_alter_eq, Hs. simpl. congruence. }
  clear Hw1.
  assert (∃ resp w',
            update_student env student_id data w = (Ok resp, w') ∧
            students w' = students w1 ∧
            (code resp = 200 → r1 = Ok tt)) as (resp & w' & -> & Hsame & Hcode).
  { destruct w as [[sts nid] ad dk out tk io]. revert Hfind.
    unfold update_student. run_handler. intros ->.
    rewrite Hupd. destruct r1 as [[]|e]; run.
    - destruct w1 as [[sts1 nid1] ad1 dk1 out1 tk1 io1]. step_save. eauto.
    - generalize (update_fields_raises_exception _ _ _ _ _ _ Hupd). run. intros ->.
      do 2 eexists. split; [reflexivity|]. split; [done|]. discriminate. }
  exists resp, w', (g s). rewrite Hsame. split; [done|].
  split; [done|]. split; [by intros; apply Hg|].
  split; [apply Hg; left; by apply (bool_decide_unpack _)|].
  split; [apply Hg; left; by apply (bool_decide_unpack _)|].
  split; [done|]. split; [done|].
  intros m k v Hd Hc. by apply Hassigned; [|apply Hcode].
Qed.

(** C10.  For a student that exists and an update input with a value of
    ["fees"] that [float()] rejects, [update_student] answers 500 with
    the exception and makes no file-system call, so nothing is
    persisted; yet the record in memory already holds the input's values
    for the fields that come before ["fees"] in the allow-list, and is
    unchanged elsewhere. *)
Theorem update_student_not_atomic student_id (m : dict) w i s fees e :
  find_by_id (students w) student_id = Ok (Some i) →
  students w !! i = Some s →
  m !! "fees" = Some fees →
  py_float env fees = Raise e →
  ∃ w' s',
    update_student env student_id (JObj m) w
      = (Ok {| payload := ErrorOf e; code := 500 |}, w') ∧
    disk w' = disk w ∧
    io_steps w' = io_steps w ∧
    students w' !! i = Some s' ∧
    (∀ k v, k ∈ fields_before_fees → m !! k = Some v → s' !! k = Some v) ∧
    (∀ k, k ∉ fields_before_fees → s' !! k = s !! k).
Proof.
  intros Hfind Hs Hfees He.
  destruct (update_fields env i (JObj m) updatable_fields w) as [r1 w1] eqn:Hupd.
  destruct (update_fields_object _ _ _ _ _ _ NoDup_updatable_fields Hupd)
    as (g & -> & _ & Hg).
  destruct r1 as [[]|e'].
  { specialize (Hg s "fees" fees). simpl in Hg.
    destruct Hg as (x & Hx & _); [by apply (bool_decide_unpack _)|done|congruence]. }
  destruct Hg as (pre & post & fees' & Hsplit & Hpre & Hm & Hx & Hset & Hkeep).
  assert (fees' = fees) as -> by congruence.
  assert (e' = e) as -> by congruence.
  assert (pre = fields_before_fees) as ->.
  { unfold updatable_fields in Hsplit. clear -Hsplit Hpre.
    do 10 (destruct pre as [|? pre]; simplify_eq/=;
           apply not_elem_of_cons in Hpre as [_ Hpre]).
    destruct pre as [|? pre]; simplify_eq/=; [done|].
    by apply not_elem_of_cons in Hpre as [? _]. }
  destruct w as [[sts nid] ad dk out tk io]. revert Hfind Hs Hupd.
  unfold update_student. run_handler. intros -> Hs ->.
  generalize (py_float_raises_exception _ _ He). run. intros ->.
  do 2 eexists. split; [reflexivity|]. run.
  rewrite list_lookup_alter_eq, Hs. simpl. eauto 10.
Qed.
End updating.

(** Renaming the stored student, with an input that also names ["id"] and ["createdAt"]. *)
Lemma update_student_frame_witness :
  ∃ resp w' s',
    update_student utc_host 1 rename_input one_student = (Ok resp, w') ∧
    students w' !! 0%nat = Some s' ∧
    (∀ k, k ∉ updatable_fields ∨ has_field rename_input k ≠ Ok true →
          s' !! k = stored_student !! k) ∧
    s' !! "id" = stored_student !! "id" ∧
    s' !! "createdAt" = stored_student !! "createdAt" ∧
    length (students w') = length (students one_student) ∧
    (∀ j, j ≠ 0%nat → students w' !! j = students one_student !! j) ∧
    (∀ m k v,
       rename_input = JObj m → code resp = 200 → k ∈ updatable_fields → m !! k = Some v →
       if String.eqb k "fees"
       then (∃ x, py_float utc_host v = Ok x ∧ s' !! k = Some (JFloat x))
       else s' !! k = Some v).
Proof.
  apply (update_student_frame utc_host 1 rename_input one_student 0%nat stored_student);
    reflexivity.
Defined.

(** An update of the stored student with a new name and the fees "abc". *)
Lemma update_student_not_atomic_witness :
  ∃ w' s',
    update_student utc_host 1 (JObj bad_fees_update) one_student
      = (Ok {| payload := ErrorOf ValueError; code := 500 |}, w') ∧
    disk w' = disk one_student ∧
    io_steps w' = io_steps one_student ∧
    students w' !! 0%nat = Some s' ∧
    (∀ k v, k ∈ fields_before_fees → bad_fees_update !! k = Some v → s' !! k = Some v) ∧
    (∀ k, k ∉ fields_before_fees → s' !! k = stored_student !! k).
Proof.
  apply (update_student_not_atomic utc_host 1 bad_fees_update one_student 0%nat
           stored_student (JStr "abc") ValueError);
    reflexivity.
Defined.

(** ** Approving admissions *)

Lemma month_statuses_lookup adm_month now_month i :
  1 ≤ i ≤ 12 →
  month_statuses adm_month now_month !! pretty i
    = Some (JInt (month_status adm_month now_month i)).
Proof.
  intros Hi.
  assert (i = 1 ∨ i = 2 ∨ i = 3 ∨ i = 4 ∨ i = 5 ∨ i = 6 ∨ i = 7 ∨ i = 8 ∨ i = 9 ∨
          i = 10 ∨ i = 11 ∨ i = 12) as Hcases by lia.
  repeat destruct Hcases as [->|Hcases]; try subst i; reflexivity.
Qed.

Lemma month_statuses_keys adm_month now_month k v :
  month_statuses adm_month now_month !! k = Some v →
  ∃ i, 1 ≤ i ≤ 12 ∧ k = pretty i.
Proof.
  unfold month_statuses. intros Hk%elem_of_list_to_map_2.
  apply list_elem_of_fmap in Hk as (i & [= -> _] & Hi).
  apply elem_of_seqZ in Hi. exists i. split; [lia|done].
Qed.

Section approving.
Context (env : environment).

(** C1 (as amended).  For a pending admission request that has the fields
    approval reads and a date [datetime.fromtimestamp] accepts,
    [approve_admission] answers 200 with the new student, appended to the
    collection, whose ["yearlyMonthStatus"] has exactly one key, the
    current calendar year, under which the keys are the months 1 to 12;
    month [i] is 2 when [i] is before the admission month, 0 when it is
    from the admission month to the current month, and 3 when it is after
    the current month and not before the admission month. *)
Theorem approve_installs_month_statuses request_id w j (admission : dict) adm_dt :
  find_by_id (requests w) request_id = Ok (Some j) →
  requests w !! j = Some admission →
  admission !! "status" = Some (JStr "pending") →
  Forall (λ k, is_Some (admission !! k)) approval_fields →
  datetime_of_ms env
    (default (JInt (epoch_ms (clock env (ticks w)))) (admission !! "admissionDate"))
    = Ok adm_dt →
  let now := local (clock env (S (ticks w))) in
  ∃ student w' months,
    approve_admission env request_id w
      = (Ok (respond 200 [("success", JBool true);
                          ("message", JStr "Admission approved and student created");
                          ("student", JObj student)]), w') ∧
    students w' = (students w ++ [student])%list ∧
    student !! "yearlyMonthStatus" = Some (JObj {[ pretty (year now) := JObj months ]}) ∧
    (∀ k, is_Some (months !! k) ↔ ∃ i, 1 ≤ i ≤ 12 ∧ k = pretty i) ∧
    (∀ i, 1 ≤ i ≤ 12 →
       (i < month adm_dt → months !! pretty i = Some (JInt 2)) ∧
       (month adm_dt ≤ i ≤ month now → months !! pretty i = Some (JInt 0)) ∧
       (month now < i → month adm_dt ≤ i → months !! pretty i = Some (JInt 3))).
Proof.
  intros Hfind Hj Hst Hfields Hdt now. subst now.
  unfold approval_fields in Hfields.
  repeat match goal with
         | H : Forall _ (_ :: _) |- _ => apply Forall_cons in H as [[? ?] H]
         end.
  destruct w as [sd [reqs nid] dk out tk io]. destruct sd as [sts snid].
  revert Hfind Hj Hdt. run. intros Hfind Hj Hdt.
  unfold approve_admission. run_handler. rewrite Hfind. run.
  repeat (rewrite Hj; simpl (default _ (Some _)); run).
  unfold getitem. rewrite Hst. change (eq_str (JStr "pending") "pending") with true. run.
  repeat (rewrite Hj; simpl (default _ (Some _)); run).
  rewrite Hdt. run.
  step_save. repeat (rewrite Hj; simpl (default _ (Some _)); run).
  repeat match goal with H : admission !! _ = Some _ |- _ => rewrite H end.
  run.
  match goal with |- context [truthy ?d] => destruct (truthy d) end; run.
  all: repeat (rewrite Hj; simpl (default _ (Some _)); run);
    repeat match goal with H : _ !! _ = Some _ |- _ => rewrite H end; run.
  all: do 2 step_save.
  all: do 3 eexists; split; [reflexivity|]; split; [reflexivity|];
    split; [reflexivity|]; split.
  all: try (intros k; split;
            [intros [v Hv]; by eapply month_statuses_keys
            |intros (i & Hi & ->); rewrite month_statuses_lookup by done; eauto]).
  all: intros i Hi; rewrite month_statuses_lookup by done; unfold month_status;
    repeat split; intros; repeat case_match; try done; lia.
Qed.
End approving.

(** C1, as stated, fails.  An admission dated December 2024 is approved in
    March 2025: month 5 is after the current month, and its status is 2,
    not 3. *)
Lemma approve_december_admission_in_march :
  month (local (clock utc_host 1)) = 3 ∧
  ∃ student w' months,
    approve_admission utc_host 1 (one_admission "pending")
      = (Ok (respond 200 [("success", JBool true);
                          ("message", JStr "Admission approved and student created");
                          ("student", JObj student)]), w') ∧
    student !! "yearlyMonthStatus" = Some (JObj {[ "2025" := JObj months ]}) ∧
    months !! "5" = Some (JInt 2).
Proof.
  split; [reflexivity|].
  do 3 eexists. split; [vm_compute; reflexivity|].
  split; reflexivity.
Qed.

(** Approving, in March 2025, the pending request dated December 2024. *)
Lemma approve_installs_month_statuses_witness :
  let now := local (clock utc_host (S (ticks (one_admission "pending")))) in
  ∃ student w' months,
    approve_admission utc_host 1 (one_admission "pending")
      = (Ok (respond 200 [("success", JBool true);
                          ("message", JStr "Admission approved and student created");
                          ("student", JObj student)]), w') ∧
    students w' = (students (one_admission "pending") ++ [student])%list ∧
    student !! "yearlyMonthStatus" = Some (JObj {[ pretty (year now) := JObj months ]}) ∧
    (∀ k, is_Some (months !! k) ↔ ∃ i, 1 ≤ i ≤ 12 ∧ k = pretty i) ∧
    (∀ i, 1 ≤ i ≤ 12 →
       (i < 12 → months !! pretty i = Some (JInt 2)) ∧
       (12 ≤ i ≤ month now → months !! pretty i = Some (JInt 0)) ∧
       (month now < i → 12 ≤ i → months !! pretty i = Some (JInt 3))).
Proof.
  apply (approve_installs_month_statuses utc_host 1 (one_admission "pending") 0%nat
           (admission_example "pending") (utc_datetime 1733011200)).
  - reflexivity.
  - reflexivity.
  - reflexivity.
  - unfold approval_fields.
    repeat (apply Forall_cons; split; [eexists; reflexivity|]). by apply Forall_nil.
  - reflexivity.
Defined.

(** ** Recording payments *)

(** *** The statements on a student object *)

Lemma entry_insert_eq (s : dict) key c yr mon :
  entry (<[key := c]> s) key yr mon = sub (sub (Some c) yr) mon.
Proof. unfold entry. by rewrite lookup_insert_eq. Qed.

Lemma entry_insert_ne (s : dict) key key' c yr mon :
  key ≠ key' → entry (<[key := c]> s) key' yr mon = entry s key' yr mon.
Proof. intros. unfold entry. by rewrite lookup_insert_ne. Qed.

Lemma entry_ext (s s' : dict) key :
  s' !! key = s !! key → ∀ yr mon, entry s' key yr mon = entry s key yr mon.
Proof. intros H yr mon. unfold entry. by rewrite H. Qed.

Lemma ensure_map_spec key (s s' : dict) :
  ensure_map key s = Ok s' →
  (∀ k, k ≠ key → s' !! k = s !! k) ∧
  (∀ k yr mon, entry s' k yr mon = entry s k yr mon).
Proof.
  unfold ensure_map. simpl. case_bool_decide as Hkey; intros [= <-]; [done|].
  split; [by intros; apply lookup_insert_ne|].
  intros k yr mon. destruct (decide (key = k)) as [<-|].
  - rewrite entry_insert_eq. unfold entry. simpl. rewrite lookup_empty.
    by destruct (s !! key) eqn:E; [destruct Hkey; eauto|].
  - by apply entry_insert_ne.
Qed.

Lemma ensure_year_spec key yr (s s' : dict) :
  ensure_year key yr s = Ok s' →
  (∀ k, k ≠ key → s' !! k = s !! k) ∧
  (∀ k y mon, entry s' k y mon = entry s k y mon).
Proof.
  unfold ensure_year, field, getitem. destruct (s !! key) as [c|] eqn:Hc; [|done].
  simpl. destruct (contains c yr) as [[|]|] eqn:Hin; simpl; try done.
  { by intros [= <-]. }
  destruct (setitem c yr (JObj ∅)) as [c'|] eqn:Hset; simpl; [|done].
  intros [= <-]. split; [by intros; apply lookup_insert_ne|].
  intros k y mon. destruct (decide (key = k)) as [<-|]; [|by apply entry_insert_ne].
  rewrite entry_insert_eq. unfold entry. rewrite Hc.
  destruct c; simpl in Hin, Hset; try done.
  - by destruct yr.
  - destruct yr as [| | | |y0| |]; simpl in Hin, Hset; try done.
    injection Hin as Hin. injection Hset as <-.
    apply bool_decide_eq_false_1 in Hin. simpl.
    destruct (decide (y0 = y)) as [->|].
    + rewrite lookup_insert_eq. simpl. rewrite lookup_empty.
      by destruct (m !! y) eqn:E; [destruct Hin; eauto|].
    + by rewrite lookup_insert_ne.
Qed.

Lemma is_JStr_dec (x : json) (y : string) : {x = JStr y} + {x ≠ JStr y}.
Proof.
  destruct x as [| | | |y0| |]; try (right; discriminate).
  destruct (decide (y0 = y)) as [->|]; [by left|right; congruence].
Qed.

Lemma set_month_spec key yr mon v (s s' : dict) :
  set_month key yr mon v s = Ok s' →
  (∀ k, k ≠ key → s' !! k = s !! k) ∧
  (∀ y, yr = JStr y → entry s' key y mon = Some v) ∧
  (∀ y m, ¬ (yr = JStr y ∧ m = mon) → entry s' key y m = entry s key y m).
Proof.
  unfold set_month, field, getitem. destruct (s !! key) as [c|] eqn:Hc; [|done].
  simpl. destruct (setitem2 c yr mon v) as [c'|] eqn:Hset; simpl; [|done].
  intros [= <-]. split; [by intros; apply lookup_insert_ne|].
  unfold setitem2 in Hset.
  destruct c as [| | | | |l|m0]; simpl in Hset; try done.
  - by destruct yr.
  - assert (∃ l', c' = JList l') as [l' ->].
    { destruct yr; simpl in Hset; try done; unfold rbind in Hset;
        repeat case_match; simplify_eq/=; eauto. }
    split.
    + intros y ->. simpl in Hset. done.
    + intros y m _. rewrite entry_insert_eq. unfold entry. by rewrite Hc.
  - destruct yr as [| | | |y0| |]; simpl in Hset; try done.
    destruct (m0 !! y0) as [inner|] eqn:Hinner; simpl in Hset; [|done].
    destruct inner as [| | | | | |mm]; simpl in Hset; try done.
    injection Hset as <-.
    split.
    + intros y [= <-]. rewrite entry_insert_eq. cbn [sub].
      rewrite lookup_insert_eq. cbn [sub]. by rewrite lookup_insert_eq.
    + intros y m Hd. rewrite entry_insert_eq. unfold entry. rewrite Hc. simpl.
      destruct (decide (y0 = y)) as [->|].
      * rewrite lookup_insert_eq, Hinner. simpl. rewrite lookup_insert_ne; [done|].
        intros <-. by apply Hd.
      * by rewrite lookup_insert_ne.
Qed.

(** Deciding [key in d] from what is known of the dictionary. *)
Ltac settle_presence :=
  repeat match goal with
    | H : ?x = None |- context [bool_decide (is_Some ?x)] =>
        rewrite (bool_decide_eq_false_2 (is_Some x)) by (rewrite H; by intros [? ?])
    | H : ?x = Some _ |- context [bool_decide (is_Some ?x)] =>
        rewrite (bool_decide_eq_true_2 (is_Some x)) by (rewrite H; eauto)
    | |- context [bool_decide (is_Some (Some ?v))] =>
        rewrite (bool_decide_eq_true_2 (is_Some (Some v))) by eauto
    | |- context [bool_decide (is_Some None)] =>
        rewrite (bool_decide_eq_false_2 (is_Some None)) by (by intros [? ?])
    end.

(** On a student whose payment maps have the shape of the data model, the
    six statements go through, and leave the month paid with the record. *)
Lemma payment_statements_ok (s : dict) yr mon payment_record :
  year_map_ok s "yearlyMonthStatus" yr →
  year_map_ok s "yearlyPaymentRecords" yr →
  ∃ s',
    payment_statements (JStr yr) mon payment_record s = Ok s' ∧
    status_at s' yr mon = Some (JInt 1) ∧
    record_at s' yr mon = Some (JObj payment_record) ∧
    s' !! "id" = s !! "id" ∧
    year_map_ok s' "yearlyMonthStatus" yr ∧
    year_map_ok s' "yearlyPaymentRecords" yr.
Proof.
  unfold year_map_ok, payment_statements, status_at, record_at, entry.
  unfold ensure_map, ensure_year, set_month, setitem2, has_field, field.
  intros Hs Hr.
  destruct (s !! "yearlyMonthStatus") as [[| | | | | |ms]|] eqn:Ems; try done;
    [destruct (ms !! yr) as [[| | | | | |mms]|] eqn:Emms; try done|];
    (destruct (s !! "yearlyPaymentRecords") as [[| | | | | |mr]|] eqn:Emr; try done;
     [destruct (mr !! yr) as [[| | | | | |mmr]|] eqn:Emmr; try done|]).
  all: repeat (simpl; settle_presence; simplify_map_eq).
  all: eexists; split; [reflexivity|]; by simplify_map_eq.
Qed.

(** *** The handler *)

Lemma on_student_run i statement w (s : dict) :
  students w !! i = Some s →
  on_student i statement w =
    match statement s with
    | Ok s' => (Ok tt, with_students (<[i := s']> (students w)) w)
    | Raise e => (Raise e, w)
    end.
Proof.
  intros Hs. destruct w as [[sts nid] ad dk out tk io]. revert Hs.
  unfold on_student. run_handler. intros ->. simpl. by destruct (statement s).
Qed.

Lemma find_by_id_insert (l : list dict) i (s s' : dict) id :
  l !! i = Some s →
  s' !! "id" = s !! "id" →
  find_by_id (<[i := s']> l) id = find_by_id l id.
Proof.
  revert i. induction l as [|s0 l IH]; intros [|i]; simpl; try done.
  - by intros [= ->] ->.
  - intros Hs Hid. by rewrite (IH i Hs Hid).
Qed.

Section paying.
Context (env : environment).

(** What [record_payment] does for a student whose payment maps have the
    shape of the data model and a request with a year, a month [int()]
    accepts and an amount [float()] accepts. *)
Lemma record_payment_ok student_id (d : dict) w i (s : dict) yr mon
    amount_in amount :
  find_by_id (students w) student_id = Ok (Some i) →
  students w !! i = Some s →
  payment_year env d (ticks w) = JStr yr →
  payment_month env d (ticks w) = Ok mon →
  d !! "amount" = Some amount_in →
  py_float env amount_in = Ok amount →
  year_map_ok s "yearlyMonthStatus" yr →
  year_map_ok s "yearlyPaymentRecords" yr →
  ∃ s' fs out n,
    payment_statements (JStr yr) (pretty mon)
      (payment_record_of d amount (epoch_ms (clock env (S (S (ticks w)))))) s = Ok s' ∧
    record_payment env student_id (JObj d) w =
      (Ok (respond 200 [("success", JBool true); ("student", JObj s')]),
       with_io_steps n (with_stdout out (with_files fs
         (with_ticks (S (S (S (ticks w))))
            (with_students (<[i := s']> (students w)) w))))).
Proof.
  intros Hfind Hs Hyr Hmon Hamount Hfloat Hms Hmr.
  destruct (payment_statements_ok s yr (pretty mon)
              (payment_record_of d amount (epoch_ms (clock env (S (S (ticks w))))))
              Hms Hmr) as (s' & Hpay & _).
  exists s'. pose proof Hpay as Hsteps. unfold payment_statements in Hsteps.
  destruct (ensure_map "yearlyMonthStatus" s) as [s1|] eqn:E1; [|done].
  simpl in Hsteps.
  destruct (ensure_map "yearlyPaymentRecords" s1) as [s2|] eqn:E2; [|done].
  simpl in Hsteps.
  destruct (ensure_year "yearlyMonthStatus" (JStr yr) s2) as [s3|] eqn:E3; [|done].
  simpl in Hsteps.
  destruct (ensure_year "yearlyPaymentRecords" (JStr yr) s3) as [s4|] eqn:E4; [|done].
  simpl in Hsteps.
  destruct (set_month "yearlyMonthStatus" (JStr yr) (pretty mon) (JInt 1) s4)
    as [s5|] eqn:E5; [|done].
  simpl in Hsteps.
  pose proof (lookup_lt_Some _ _ _ Hs) as Hlen.
  destruct w as [[sts nid] ad dk out tk io].
  revert Hfind Hs Hyr Hmon Hlen E5 Hsteps Hpay.
  unfold record_payment, payment_record_of, payment_year, payment_month. run_handler.
  intros -> Hs Hyr Hmon Hlen E5 E6 Hpay. unfold getitem.
  rewrite Hyr, Hmon, Hamount, Hfloat. run.
  rewrite (on_student_run _ _ _ s) by done. rewrite E1. run.
  rewrite (on_student_run _ _ _ s1) by (run; by apply list_lookup_insert_eq).
  rewrite E2. run. rewrite list_insert_insert_eq.
  rewrite (on_student_run _ _ _ s2) by (run; by apply list_lookup_insert_eq).
  rewrite E3. run. rewrite list_insert_insert_eq.
  rewrite (on_student_run _ _ _ s3) by (run; by apply list_lookup_insert_eq).
  rewrite E4. run. rewrite list_insert_insert_eq.
  rewrite (on_student_run _ _ _ s4) by (run; by apply list_lookup_insert_eq).
  rewrite E5. run. rewrite list_insert_insert_eq.
  rewrite (on_student_run _ _ _ s5) by (run; by apply list_lookup_insert_eq).
  rewrite E6. run. rewrite list_insert_insert_eq.
  step_save. rewrite list_lookup_insert_eq by done. simpl.
  do 3 eexists. split; [done|]. reflexivity.
Qed.

(** C6.  For a student that exists, with payment maps of the shape of the
    data model, two calls of [record_payment] that are for the same year
    and month (given in the requests, or taken from the clock), with
    amounts [float()] accepts, both answer 200, and after the second the
    month has status 1 and its payment record is the record of the second
    call: one record for the month, the last one written. *)
Theorem record_payment_last_write_wins student_id (d1 d2 : dict) w i (s : dict)
    yr mon amount_in1 amount_in2 amount1 amount2 :
  find_by_id (students w) student_id = Ok (Some i) →
  students w !! i = Some s →
  year_map_ok s "yearlyMonthStatus" yr →
  year_map_ok s "yearlyPaymentRecords" yr →
  payment_year env d1 (ticks w) = JStr yr →
  payment_month env d1 (ticks w) = Ok mon →
  payment_year env d2 (3 + ticks w) = JStr yr →
  payment_month env d2 (3 + ticks w) = Ok mon →
  d1 !! "amount" = Some amount_in1 → py_float env amount_in1 = Ok amount1 →
  d2 !! "amount" = Some amount_in2 → py_float env amount_in2 = Ok amount2 →
  ∃ s1 w1 s2 w2,
    record_payment env student_id (JObj d1) w
      = (Ok (respond 200 [("success", JBool true); ("student", JObj s1)]), w1) ∧
    record_payment env student_id (JObj d2) w1
      = (Ok (respond 200 [("success", JBool true); ("student", JObj s2)]), w2) ∧
    students w2 !! i = Some s2 ∧
    status_at s2 yr (pretty mon) = Some (JInt 1) ∧
    record_at s2 yr (pretty mon)
      = Some (JObj (payment_record_of d2 amount2
                      (epoch_ms (clock env (S (S (ticks w1))))))).
Proof.
  intros Hfind Hs Hms Hmr Hyr1 Hmon1 Hyr2 Hmon2 Ha1 Hf1 Ha2 Hf2.
  pose proof (lookup_lt_Some _ _ _ Hs) as Hlen.
  destruct (record_payment_ok student_id d1 w i s yr mon amount_in1 amount1
              Hfind Hs Hyr1 Hmon1 Ha1 Hf1 Hms Hmr)
    as (s1 & fs1 & out1 & n1 & Hpay1 & Hcall1).
  destruct (payment_statements_ok s yr (pretty mon)
              (payment_record_of d1 amount1 (epoch_ms (clock env (S (S (ticks w))))))
              Hms Hmr)
    as (s1' & Hpay1' & _ & _ & Hid1 & Hms1 & Hmr1).
  rewrite Hpay1 in Hpay1'. injection Hpay1' as <-.
  set (w1 := with_io_steps n1 (with_stdout out1 (with_files fs1
               (with_ticks (S (S (S (ticks w))))
                  (with_students (<[i := s1]> (students w)) w))))) in *.
  assert (students w1 = <[i := s1]> (students w)) as Hsts1.
  { by destruct w as [[sts nid] ad dk out tk io]. }
  assert (ticks w1 = (3 + ticks w)%nat) as Htk1.
  { by destruct w as [[sts nid] ad dk out tk io]. }
  assert (find_by_id (students w1) student_id = Ok (Some i)) as Hfind1.
  { rewrite Hsts1. by rewrite (find_by_id_insert _ _ s). }
  assert (students w1 !! i = Some s1) as Hs1.
  { rewrite Hsts1. by apply list_lookup_insert_eq. }
  rewrite <- Htk1 in Hyr2, Hmon2.
  destruct (record_payment_ok student_id d2 w1 i s1 yr mon amount_in2 amount2
              Hfind1 Hs1 Hyr2 Hmon2 Ha2 Hf2 Hms1 Hmr1)
    as (s2 & fs2 & out2 & n2 & Hpay2 & Hcall2).
  destruct (payment_statements_ok s1 yr (pretty mon)
              (payment_record_of d2 amount2 (epoch_ms (clock env (S (S (ticks w1))))))
              Hms1 Hmr1)
    as (s2' & Hpay2' & Hstatus & Hrecord & _).
  rewrite Hpay2 in Hpay2'. injection Hpay2' as <-.
  exists s1, w1, s2. eexists. split; [exact Hcall1|]. split; [exact Hcall2|].
  split; [|done].
  rewrite Hsts1. destruct w as [[sts nid] ad dk out tk io]. run.
  rewrite list_insert_insert_eq. apply list_lookup_insert_eq. done.
Qed.
End paying.

(** Two payments for March 2025, of 1500 and then 1800. *)
Lemma record_payment_last_write_wins_witness :
  ∃ s1 w1 s2 w2,
    record_payment utc_host 1 (JObj (payment_input 1500)) one_student
      = (Ok (respond 200 [("success", JBool true); ("student", JObj s1)]), w1) ∧
    record_payment utc_host 1 (JObj (payment_input 1800)) w1
      = (Ok (respond 200 [("success", JBool true); ("student", JObj s2)]), w2) ∧
    students w2 !! 0%nat = Some s2 ∧
    status_at s2 "2025" (pretty 3) = Some (JInt 1) ∧
    record_at s2 "2025" (pretty 3)
      = Some (JObj (payment_record_of (payment_input 1800) 1800%float
                      (epoch_ms (clock utc_host (S (S (ticks w1))))))).
Proof.
  apply (record_payment_last_write_wins utc_host 1 (payment_input 1500)
           (payment_input 1800) one_student 0%nat stored_student "2025" 3
           (JInt 1500) (JInt 1800) 1500%float 1800%float);
    try reflexivity; exact I.
Defined.

(** ** The invariant of the payment maps *)

(** *** Computations that do not touch the students *)

Lemma keeps_ret {A} (a : A) : keeps_students (ret a).
Proof. by intros w r w' [= <- <-]. Qed.

Lemma keeps_raise {A} e : keeps_students (raise (A := A) e).
Proof. by intros w r w' [= <- <-]. Qed.

Lemma keeps_lift {A} (x : result A) : keeps_students (lift x).
Proof. by intros w r w' [= <- <-]. Qed.

Lemma keeps_gets {A} (f : world → A) : keeps_students (gets f).
Proof. by intros w r w' [= <- <-]. Qed.

Lemma keeps_bind {A B} (m : M A) (k : A → M B) :
  keeps_students m → (∀ a, keeps_students (k a)) → keeps_students (bind m k).
Proof.
  intros Hm Hk w r w'. unfold bind. destruct (m w) as [[a|e] w1] eqn:Em.
  - intros Hk1. rewrite (Hk _ _ _ _ Hk1). by eapply Hm.
  - intros [= <- <-]. by eapply Hm.
Qed.

Lemma keeps_try_except {A} (body : M A) catches handler :
  keeps_students body → (∀ e, keeps_students (handler e)) →
  keeps_students (try_except body catches handler).
Proof.
  intros Hm Hh w r w'. unfold try_except. destruct (body w) as [[a|e] w1] eqn:Em.
  - intros [= <- <-]. by eapply Hm.
  - destruct (catches e).
    + intros Hh1. rewrite (Hh _ _ _ _ Hh1). by eapply Hm.
    + intros [= <- <-]. by eapply Hm.
Qed.

Lemma keeps_modify (f : world → world) :
  (∀ w, students (f w) = students w) → keeps_students (modify f).
Proof. intros Hf w r w' [= <- <-]. apply Hf. Qed.

Lemma keeps_find_student id : keeps_students (find_student id).
Proof. by intros w r w' [= <- <-]. Qed.

Lemma keeps_find_request id : keeps_students (find_request id).
Proof. by intros w r w' [= <- <-]. Qed.

Lemma keeps_internal_error e : keeps_students (internal_error e).
Proof. apply keeps_ret. Qed.

Lemma keeps_request_set j key v : keeps_students (request_set j key v).
Proof. apply keeps_modify. by intros [[??][??]????]. Qed.

Lemma keeps_request_get j key : keeps_students (request_get j key).
Proof. apply keeps_bind; [apply keeps_gets|intros; apply keeps_lift]. Qed.

Section surroundings.
Context (env : environment).

Lemma keeps_datetime_now : keeps_students (datetime_now env).
Proof. intros [[??]?????] r w' [= <- <-]. done. Qed.

Lemma keeps_now_ms : keeps_students (now_ms env).
Proof. apply keeps_bind; [apply keeps_datetime_now|intros; apply keeps_ret]. Qed.

Lemma keeps_get_or data name dflt :
  keeps_students dflt → keeps_students (get_or data name dflt).
Proof.
  intros Hd. destruct data; try apply keeps_raise.
  apply keeps_bind; [done|intros; apply keeps_ret].
Qed.

Lemma keeps_save_students : keeps_students (save_students env).
Proof.
  intros w r w'. destruct (save_students_returns env w) as (fs & out & n & ->).
  intros [= <- <-]. by destruct w as [[??]?????].
Qed.

Lemma keeps_save_admissions : keeps_students (save_admissions env).
Proof.
  intros w r w'. destruct (save_admissions_returns env w) as (fs & out & n & ->).
  intros [= <- <-]. by destruct w as [[??]?????].
Qed.

Lemma keeps_get_next_student_id : keeps_students (get_next_student_id env).
Proof.
  intros w r w'. destruct (get_next_student_id_returns env w) as (fs & out & n & ->).
  intros [= <- <-]. by destruct w as [[??]?????].
Qed.
End surroundings.

(** *** Computations that keep the invariant *)

Lemma keeps_preserves {A} (m : M A) : keeps_students m → preserves_marks m.
Proof. intros Hm w r w' Hrun. by rewrite (Hm _ _ _ Hrun). Qed.

Lemma preserves_bind {A B} (m : M A) (k : A → M B) :
  preserves_marks m → (∀ a, preserves_marks (k a)) → preserves_marks (bind m k).
Proof.
  intros Hm Hk w r w'. unfold bind. destruct (m w) as [[a|e] w1] eqn:Em.
  - intros Hk1 Hinv. eapply Hk; [done|]. by eapply Hm.
  - intros [= <- <-]. by eapply Hm.
Qed.

Lemma preserves_try_except {A} (body : M A) catches handler :
  preserves_marks body → (∀ e, preserves_marks (handler e)) →
  preserves_marks (try_except body catches handler).
Proof.
  intros Hm Hh w r w'. unfold try_except. destruct (body w) as [[a|e] w1] eqn:Em.
  - intros [= <- <-]. by eapply Hm.
  - destruct (catches e).
    + intros Hh1 Hinv. eapply Hh; [done|]. by eapply Hm.
    + intros [= <- <-]. by eapply Hm.
Qed.

Lemma paid_months_marked_ext (s s' : dict) :
  (∀ k yr mon, entry s' k yr mon = entry s k yr mon) →
  paid_months_marked s → paid_months_marked s'.
Proof.
  intros Hext Hs yr mon. unfold record_at, status_at. rewrite !Hext. apply Hs.
Qed.

Lemma paid_months_marked_no_records (s : dict) :
  s !! "yearlyPaymentRecords" = Some (JObj ∅) → paid_months_marked s.
Proof.
  intros Hs yr mon [x Hx]. unfold record_at, entry in Hx. rewrite Hs in Hx.
  simpl in Hx. by rewrite lookup_empty in Hx.
Qed.

Lemma preserves_on_student i statement :
  (∀ s s', statement s = Ok s' → paid_months_marked s → paid_months_marked s') →
  preserves_marks (on_student i statement).
Proof.
  intros Hstep w r w' Hrun Hinv.
  destruct (students w !! i) as [s|] eqn:Hs.
  - rewrite (on_student_run _ _ _ s Hs) in Hrun.
    destruct (statement s) as [s'|e] eqn:Es; injection Hrun as <- <-; [|done].
    destruct w as [[sts nid] ad dk out tk io]. revert Hs Hinv. run. intros Hs Hinv.
    apply Forall_insert; [done|]. eapply Hstep; [done|].
    by eapply Forall_lookup_1.
  - revert Hrun. destruct w as [[sts nid] ad dk out tk io]. revert Hs Hinv.
    unfold on_student. run_handler. intros Hs Hinv. rewrite Hs. simpl.
    destruct (statement ∅); intros [= <- <-]; [|done].
    rewrite list_insert_ge; [done|]. by apply lookup_ge_None.
Qed.

Lemma paid_months_marked_maps (s s' : dict) :
  s' !! "yearlyMonthStatus" = s !! "yearlyMonthStatus" →
  s' !! "yearlyPaymentRecords" = s !! "yearlyPaymentRecords" →
  paid_months_marked s → paid_months_marked s'.
Proof.
  intros Hms Hmr Hs yr mon. unfold record_at, status_at, entry.
  rewrite Hms, Hmr. apply Hs.
Qed.

Lemma ensure_map_marks key (s s' : dict) :
  ensure_map key s = Ok s' → paid_months_marked s → paid_months_marked s'.
Proof.
  intros [_ Hext]%ensure_map_spec. by apply paid_months_marked_ext.
Qed.

Lemma ensure_year_marks key yr (s s' : dict) :
  ensure_year key yr s = Ok s' → paid_months_marked s → paid_months_marked s'.
Proof.
  intros [_ Hext]%ensure_year_spec. by apply paid_months_marked_ext.
Qed.

(** Marking a month paid keeps the invariant, and makes room for the
    record of that month. *)
Lemma set_month_status_marks yr mon (s s' : dict) :
  set_month "yearlyMonthStatus" yr mon (JInt 1) s = Ok s' →
  paid_months_marked s →
  paid_months_marked s' ∧ ∀ y, yr = JStr y → status_at s' y mon = Some (JInt 1).
Proof.
  intros (Hframe & Hset & Hkeep)%set_month_spec Hs. split; [|by apply Hset].
  intros y m Hrec. unfold record_at in Hrec.
  rewrite (entry_ext s s' "yearlyPaymentRecords") in Hrec by (by apply Hframe).
  unfold status_at.
  destruct (is_JStr_dec yr y) as [->|Hne]; [destruct (decide (m = mon)) as [->|]|].
  - by apply Hset.
  - rewrite Hkeep by (by intros [_ ?]). by apply Hs.
  - rewrite Hkeep by (by intros [? _]). by apply Hs.
Qed.

Lemma set_month_record_marks yr mon v (s s' : dict) :
  set_month "yearlyPaymentRecords" yr mon v s = Ok s' →
  (∀ y, yr = JStr y → status_at s y mon = Some (JInt 1)) →
  paid_months_marked s →
  paid_months_marked s'.
Proof.
  intros (Hframe & Hset & Hkeep)%set_month_spec Hpaid Hs y m Hrec.
  unfold status_at.
  rewrite (entry_ext s s' "yearlyMonthStatus") by (by apply Hframe).
  destruct (is_JStr_dec yr y) as [->|Hne]; [destruct (decide (m = mon)) as [->|]|].
  - by apply Hpaid.
  - apply Hs. unfold record_at in *. by rewrite Hkeep in Hrec by (by intros [_ ?]).
  - apply Hs. unfold record_at in *. by rewrite Hkeep in Hrec by (by intros [? _]).
Qed.

Lemma preserves_mark_then_record {A} i yr mon v (k : M A) :
  preserves_marks k →
  preserves_marks
    (bind (on_student i (set_month "yearlyMonthStatus" yr mon (JInt 1))) (λ _,
     bind (on_student i (set_month "yearlyPaymentRecords" yr mon v)) (λ _, k))).
Proof.
  intros Hk w r w' Hrun Hinv. unfold bind in Hrun.
  destruct (students w !! i) as [s|] eqn:Hs.
  - pose proof (lookup_lt_Some _ _ _ Hs) as Hlen.
    rewrite (on_student_run _ _ _ s Hs) in Hrun.
    destruct (set_month "yearlyMonthStatus" yr mon (JInt 1) s) as [s5|e] eqn:E5;
      [|by injection Hrun as <- <-].
    destruct (set_month_status_marks _ _ _ _ E5) as [Hs5 Hpaid];
      [by eapply Forall_lookup_1|].
    set (w5 := with_students (<[i := s5]> (students w)) w) in *.
    assert (students w5 = <[i := s5]> (students w)) as Hsts5
      by (by destruct w as [[??]?????]).
    assert (Forall paid_months_marked (students w5)) as Hinv5.
    { rewrite Hsts5. by apply Forall_insert. }
    assert (students w5 !! i = Some s5) as Hs5'.
    { rewrite Hsts5. by apply list_lookup_insert_eq. }
    rewrite (on_student_run _ _ _ s5 Hs5') in Hrun.
    destruct (set_month "yearlyPaymentRecords" yr mon v s5) as [s6|e] eqn:E6;
      [|by injection Hrun as <- <-].
    eapply Hk; [exact Hrun|].
    destruct w5 as [[sts5 nid] ad dk out tk io]. revert Hsts5 Hinv5. run.
    intros -> Hinv5. apply Forall_insert; [done|].
    by eapply set_month_record_marks.
  - assert (∀ statement, on_student i statement w =
              match statement ∅ with Ok _ => (Ok tt, w) | Raise e => (Raise e, w) end)
      as Hnone.
    { intros statement. destruct w as [[sts nid] ad dk out tk io]. revert Hs.
      unfold on_student. run_handler. intros Hs. rewrite Hs. simpl.
      destruct (statement ∅); [|done].
      rewrite list_insert_ge; [done|]. by apply lookup_ge_None. }
    rewrite !Hnone in Hrun.
    destruct (set_month "yearlyMonthStatus" yr mon (JInt 1) ∅);
      [|by injection Hrun as <- <-].
    rewrite Hnone in Hrun.
    destruct (set_month "yearlyPaymentRecords" yr mon v ∅);
      [|by injection Hrun as <- <-].
    by eapply Hk.
Qed.

(** Composing the rules along the text of a handler. *)
Ltac keeps :=
  repeat first
    [ apply keeps_ret | apply keeps_raise | apply keeps_lift | apply keeps_gets
    | apply keeps_find_student | apply keeps_find_request | apply keeps_internal_error
    | apply keeps_request_set | apply keeps_request_get
    | apply keeps_datetime_now | apply keeps_now_ms | apply keeps_get_or
    | apply keeps_save_students | apply keeps_save_admissions
    | apply keeps_get_next_student_id
    | apply keeps_bind; [|intros ?]
    | match goal with
      | |- keeps_students (match ?x with _ => _ end) => destruct x
      end ].

Lemma preserves_append (student : dict) :
  paid_months_marked student →
  preserves_marks (modify (λ w, with_students (students w ++ [student]) w)).
Proof.
  intros Hs [[sts nid] ad dk out tk io] r w' [= <- <-]. run. intros Hinv.
  apply Forall_app. split; [done|]. by apply Forall_singleton.
Qed.

Ltac marks :=
  repeat first
    [ apply preserves_mark_then_record
    | apply preserves_append; by apply paid_months_marked_no_records
    | apply preserves_on_student; [by eauto using ensure_map_marks, ensure_year_marks]
    | apply preserves_try_except; [|intros ?]
    | apply keeps_preserves; solve [keeps]
    | apply preserves_bind; [|intros ?]
    | match goal with
      | |- preserves_marks (match ?x with _ => _ end) => destruct x
      end ].

Section marks.
Context (env : environment).

Lemma record_payment_preserves student_id data :
  preserves_marks (record_payment env student_id data).
Proof. unfold record_payment. marks. Qed.

Lemma approve_admission_preserves request_id :
  preserves_marks (approve_admission env request_id).
Proof. unfold approve_admission. marks. Qed.

Lemma update_fields_preserves i data fields :
  has_field data "yearlyMonthStatus" ≠ Ok true →
  has_field data "yearlyPaymentRecords" ≠ Ok true →
  preserves_marks (update_fields env i data fields).
Proof.
  intros Hms Hmr w r w' Hrun Hinv.
  destruct (update_fields_frame _ _ _ _ _ _ _ Hrun) as (g & -> & Hg).
  destruct w as [[sts nid] ad dk out tk io]. revert Hinv. run. intros Hinv.
  apply Forall_alter; [done|]. intros s _.
  apply paid_months_marked_maps; apply Hg; by right.
Qed.

Lemma update_student_preserves student_id data :
  has_field data "yearlyMonthStatus" ≠ Ok true →
  has_field data "yearlyPaymentRecords" ≠ Ok true →
  preserves_marks (update_student env student_id data).
Proof.
  intros Hms Hmr. unfold update_student.
  apply preserves_try_except; [|intros; apply keeps_preserves; keeps].
  apply preserves_bind; [apply keeps_preserves; keeps|intros [i|]];
    [|apply keeps_preserves; keeps].
  apply preserves_bind; [by apply update_fields_preserves|intros _].
  apply keeps_preserves; keeps.
Qed.

(** C8 (as amended).  In a state where every student satisfies the
    invariant (each month with a payment record is marked with status 1),
    every student satisfies it again after [record_payment], after
    [approve_admission], and after an [update_student] whose input has
    neither ["yearlyMonthStatus"] nor ["yearlyPaymentRecords"], however
    the call ends. *)
Theorem paid_marks_preserved w :
  Forall paid_months_marked (students w) →
  (∀ student_id data r w',
     record_payment env student_id data w = (r, w') →
     Forall paid_months_marked (students w')) ∧
  (∀ request_id r w',
     approve_admission env request_id w = (r, w') →
     Forall paid_months_marked (students w')) ∧
  (∀ student_id data r w',
     has_field data "yearlyMonthStatus" ≠ Ok true →
     has_field data "yearlyPaymentRecords" ≠ Ok true →
     update_student env student_id data w = (r, w') →
     Forall paid_months_marked (students w')).
Proof.
  intros Hinv. split; [|split].
  - intros student_id data r w' Hrun. by eapply record_payment_preserves.
  - intros request_id r w' Hrun. by eapply approve_admission_preserves.
  - intros student_id data r w' Hms Hmr Hrun. by eapply update_student_preserves.
Qed.
End marks.

Lemma stored_student_marked : paid_months_marked stored_student.
Proof. by apply paid_months_marked_no_records. Qed.

(** C8, as stated, fails.  The stored student satisfies the invariant; an
    update that gives payment records for March 2025 and no statuses is
    answered 200, and the record then has a payment for a month that is
    not marked paid. *)
Lemma update_student_breaks_paid_marks :
  paid_months_marked stored_student ∧
  ∃ resp w' s',
    update_student utc_host 1 records_only_update one_student = (Ok resp, w') ∧
    code resp = 200 ∧
    students w' !! 0%nat = Some s' ∧
    ¬ paid_months_marked s'.
Proof.
  split; [apply stored_student_marked|].
  do 3 eexists. split; [vm_compute; reflexivity|].
  split; [reflexivity|]. split; [reflexivity|].
  intros Hmarked. specialize (Hmarked "2025" "3").
  assert (status_at
            (<["yearlyPaymentRecords" :=
                 JObj {[ "2025" := JObj {[ "3" := JObj (payment_record_of ∅ 1500 0) ]} ]}]>
               stored_student) "2025" "3" = None) as Hnone by reflexivity.
  vm_compute in Hmarked. vm_compute in Hnone.
  rewrite Hnone in Hmarked. discriminate Hmarked. eexists. reflexivity.
Qed.

(** The state with the one stored student, whose payment maps are empty. *)
Lemma paid_marks_preserved_witness :
  (∀ student_id data r w',
     record_payment utc_host student_id data one_student = (r, w') →
     Forall paid_months_marked (students w')) ∧
  (∀ request_id r w',
     approve_admission utc_host request_id one_student = (r, w') →
     Forall paid_months_marked (students w')) ∧
  (∀ student_id data r w',
     has_field data "yearlyMonthStatus" ≠ Ok true →
     has_field data "yearlyPaymentRecords" ≠ Ok true →
     update_student utc_host student_id data one_student = (r, w') →
     Forall paid_months_marked (students w')).
Proof.
  apply (paid_marks_preserved utc_host one_student).
  apply Forall_singleton. apply stored_student_marked.
Defined.

(** The example of the specification: a request submitted without a date
    and approved in the same month (March 2025 on this host) gets 2 for
    the months before, 0 for the current month and 3 for the months
    after. *)
Example submit_then_approve_same_month :
  ∃ r1 w1 student w2,
    submit_admission_request utc_host admission_input fresh = (Ok r1, w1) ∧
    code r1 = 201 ∧
    approve_admission utc_host 1 w1
      = (Ok (respond 200 [("success", JBool true);
                          ("message", JStr "Admission approved and student created");
                          ("student", JObj student)]), w2) ∧
    student !! "yearlyMonthStatus"
      = Some (JObj {[ "2025" := JObj (list_to_map
          [("1", JInt 2); ("2", JInt 2); ("3", JInt 0); ("4", JInt 3); ("5", JInt 3);
           ("6", JInt 3); ("7", JInt 3); ("8", JInt 3); ("9", JInt 3); ("10", JInt 3);
           ("11", JInt 3); ("12", JInt 3)]) ]}).
Proof.
  do 4 eexists. split; [vm_compute; reflexivity|]. split; [reflexivity|].
  split; [vm_compute; reflexivity|]. reflexivity.
Qed.

(** ** The id allocator *)

Lemma ids_allocated_fresh : ids_allocated fresh.
Proof. constructor. Qed.

Lemma ids_allocated_next_id_fresh w : ids_allocated w → next_id_fresh w.
Proof.
  unfold ids_allocated, next_id_fresh. intros Hids.
  eapply Forall_impl; [exact Hids|].
  intros s (z & Hz & Hlt). exists (JInt z). split; [done|].
  simpl. apply Z.eqb_neq. lia.
Qed.

(** Creating a student keeps the ids below the counter, so that the next
    creation finds the state it needs. *)
Lemma add_student_allocates env (m : dict) w fees r w' :
  Forall (λ k, is_Some (m !! k)) required_student_fields →
  m !! "fees" = Some fees →
  add_student env (JObj m) w = (r, w') →
  ids_allocated w → ids_allocated w'.
Proof.
  intros Hreq Hfees.
  destruct (add_student_outcome env m w fees Hreq Hfees) as (fs & out & n & ->).
  destruct w as [[sts nid] ad dk out0 tk io]. unfold ids_allocated. run.
  destruct (py_float env fees) as [f|e]; intros [= <- <-]; run; intros Hids.
  - apply Forall_app. split.
    + eapply Forall_impl; [exact Hids|]. intros s (z & Hz & Hlt). exists z.
      split; [done|lia].
    + apply Forall_singleton. exists nid. split; [reflexivity|lia].
  - eapply Forall_impl; [exact Hids|]. intros s (z & Hz & Hlt). exists z.
    split; [done|lia].
Qed.

(* ===================================================================== *)
(** * Further properties *)
(* ===================================================================== *)

(** ** The document store *)

Section store.
Context (env : environment).



End store.




Section quarantine.
Context (env : environment).

End quarantine.


Section unreadable.
Context (env : environment).


End unreadable.



(** ** Requests that are refused *)


Section refused.
Context (env : environment).




End refused.





(** ** Deleting a student *)


Section deleting.
Context (env : environment).

End deleting.


(** ** Submitting an admission request *)

Section submitting.
Context (env : environment).

End submitting.


(** ** Processing an admission request *)


Section processing.
Context (env : environment).


End processing.


Section rejecting.
Context (env : environment).


End rejecting.



(** ** What a payment leaves alone *)



Section paying.
Context (env : environment).

End paying.


(** ** Counting admission requests *)


Section counting.
Context (env : environment).

End counting.

